(** * Stripe dashboard: catalog, creation form, analytics and the
      connectivity check, as pure functions over an explicit provider.

    The Python sources are embedded shallowly:
    - Python floats are IEEE-754 binary64 values ([spec_float] with
      precision 53 and maximal exponent 1024);
    - values that arrive from the browser untyped are [pyval]s;
    - f-strings are kept as lists of pieces, so that a formatted value
      stays visible as the value it was formatted from;
    - every call of the [stripe] package goes through the class [Stripe],
      an arbitrary (possibly stateful, possibly failing) provider, and is
      recorded in a call log;
    - [try]/[except] is an exception monad that keeps the state reached
      when the exception was raised. *)

From Stdlib Require Import ZArith List String Ascii Bool Lia Permutation Sorted.
From Stdlib Require Import Floats.SpecFloat.
Import ListNotations.

Local Open Scope string_scope.
Local Open Scope Z_scope.

(** ** Binary64 arithmetic, as Python's [float] uses it *)

Module F64.

Definition prec : Z := 53.
Definition emax : Z := 1024.

Definition float := spec_float.

Definition zero : float := S754_zero false.

Definition add : float -> float -> float := SFadd prec emax.
Definition sub : float -> float -> float := SFsub prec emax.
Definition mul : float -> float -> float := SFmul prec emax.
Definition div : float -> float -> float := SFdiv prec emax.

(** [x == 0.0], true of both zeros and false of NaN. *)
Definition is_zero (x : float) : bool :=
  match x with
  | S754_zero _ => true
  | _ => false
  end.

(** The float nearest to the integer [z] (ties to even): Python's
    [float(z)], which is infinite here exactly where Python raises
    [OverflowError]. *)
Definition of_Z (z : Z) : float := binary_normalize prec emax z 0 false.

(** The float nearest to the fraction [n / d], for [d > 0]: Python's true
    division [n / d] of two integers, which rounds the exact quotient
    once, whatever the size of [n] and [d]. *)
Definition ratio (n : Z) (d : positive) : float :=
  match n with
  | Z0 => zero
  | Zpos m => div (S754_finite false m 0) (S754_finite false d 0)
  | Zneg m => div (S754_finite true m 0) (S754_finite false d 0)
  end.

(** The float nearest to [m * 10 ^ e]: what a decimal literal with digits
    [m] and decimal exponent [e] denotes, in a Python source, in JSON and
    for [float] applied to a string. *)
Definition of_decimal (m e : Z) : float :=
  match e with
  | Zneg k => ratio m (Pos.pow 10 k)
  | _ => of_Z (m * 10 ^ e)
  end.

(** Python's [int(x)]: the integer part, rounded toward zero; [None]
    where Python raises ([OverflowError] on an infinity, [ValueError] on
    NaN). *)
Definition trunc (x : float) : option Z :=
  match x with
  | S754_zero _ => Some 0
  | S754_finite s m e =>
      let a := match e with
               | Zneg k => Z.shiftr (Zpos m) (Zpos k)
               | _ => Z.shiftl (Zpos m) e
               end in
      Some (if s then - a else a)
  | S754_infinity _ | S754_nan => None
  end.

(** The larger of two floats: [b] when [b > a], else [a]. *)
Definition max (a b : float) : float :=
  if SFltb a b then b else a.

End F64.

(** ** Python values and strings *)

(** A value as the browser sends it for a form field: JSON [null], a
    number (Python [int] or [float]) or a string. *)
Inductive pyval :=
| PNone
| PInt (z : Z)
| PFloat (x : F64.float)
| PStr (s : string).

(** Truth value of [v] in a condition ([if v], [not v], [v or d]). *)
Definition truthy (v : pyval) : bool :=
  match v with
  | PNone => false
  | PInt z => negb (z =? 0)%Z
  | PFloat x => negb (F64.is_zero x)
  | PStr s => negb (s =? "")%string
  end.

(** A text field holds [None] until it is typed in, then a string. *)
Definition of_field (o : option string) : pyval :=
  match o with
  | Some s => PStr s
  | None => PNone
  end.

(** [o or d] for an optional string. *)
Definition or_else (o : option string) (d : string) : string :=
  match o with
  | Some s => if (s =? "")%string then d else s
  | None => d
  end.

(** An f-string, piece by piece: literal text, and replacement fields
    [{v:spec}] kept as the value and its format specification. *)
Inductive piece :=
| Lit (s : string)
| Fmt (v : pyval) (spec : string).

Definition text := list piece.

Module Str.

Definition is_space (c : ascii) : bool :=
  let n := nat_of_ascii c in
  ((9 <=? n) && (n <=? 13) || (n =? 32))%nat.

Definition digit (c : ascii) : option Z :=
  let n := Z.of_nat (nat_of_ascii c) in
  if (48 <=? n) && (n <=? 57) then Some (n - 48) else None.

Definition upper_ascii (c : ascii) : ascii :=
  let n := nat_of_ascii c in
  if ((97 <=? n) && (n <=? 122))%nat then ascii_of_nat (n - 32) else c.

Definition lower_ascii (c : ascii) : ascii :=
  let n := nat_of_ascii c in
  if ((65 <=? n) && (n <=? 90))%nat then ascii_of_nat (n + 32) else c.

(** [s.upper()], on ASCII letters. *)
Definition upper (s : string) : string :=
  string_of_list_ascii (map upper_ascii (list_ascii_of_string s)).

Fixpoint lstrip (cs : list ascii) : list ascii :=
  match cs with
  | c :: cs' => if is_space c then lstrip cs' else cs
  | [] => []
  end.

Definition strip (cs : list ascii) : list ascii :=
  rev (lstrip (rev (lstrip cs))).

(** [s.startswith(p)] *)
Definition startswith (s p : string) : bool := prefix p s.

(** The digits after the first one of a [digitpart]: digits, each
    possibly preceded by one underscore. Returns the number read, the
    count of digits and the rest of the input. *)
Fixpoint digits_rest (acc cnt : Z) (cs : list ascii) : Z * Z * list ascii :=
  match cs with
  | c :: cs' =>
      match digit c with
      | Some d => digits_rest (10 * acc + d) (cnt + 1) cs'
      | None =>
          if (c =? "_")%char then
            match cs' with
            | c2 :: cs'' =>
                match digit c2 with
                | Some d => digits_rest (10 * acc + d) (cnt + 1) cs''
                | None => (acc, cnt, cs)
                end
            | [] => (acc, cnt, cs)
            end
          else (acc, cnt, cs)
      end
  | [] => (acc, cnt, [])
  end.

(** [digitpart ::= digit (["_"] digit)*], continuing the number [acc]. *)
Definition digitpart (acc : Z) (cs : list ascii) : option (Z * Z * list ascii) :=
  match cs with
  | c :: cs' =>
      match digit c with
      | Some d => Some (digits_rest (10 * acc + d) 1 cs')
      | None => None
      end
  | [] => None
  end.

Definition sign (cs : list ascii) : bool * list ascii :=
  match cs with
  | "-"%char :: cs' => (true, cs')
  | "+"%char :: cs' => (false, cs')
  | _ => (false, cs)
  end.

(** [number ::= [digitpart] "." digitpart | digitpart ["."]]: the digits
    as one integer, and how many of them follow the point. *)
Definition number (cs : list ascii) : option (Z * Z * list ascii) :=
  match digitpart 0 cs with
  | Some (ip, _, rest) =>
      match rest with
      | "."%char :: rest' =>
          match digitpart ip rest' with
          | Some r => Some r
          | None => Some (ip, 0, rest')
          end
      | _ => Some (ip, 0, rest)
      end
  | None =>
      match cs with
      | "."%char :: rest' => digitpart 0 rest'
      | _ => None
      end
  end.

(** [exponent ::= ("e" | "E") [sign] digitpart], absent when the input
    ends after the number. *)
Definition exponent (cs : list ascii) : option Z :=
  match cs with
  | [] => Some 0
  | c :: cs' =>
      if (lower_ascii c =? "e")%char then
        let '(neg, cs'') := sign cs' in
        match digitpart 0 cs'' with
        | Some (e, _, []) => Some (if neg then - e else e)
        | _ => None
        end
      else None
  end.

(** Python's [float(s)] for a string: surrounding white space, a sign,
    then [inf], [infinity] or [nan] in any case, or a decimal number with
    an optional exponent. [None] where Python raises [ValueError]. Only
    ASCII white space and digits are recognised. *)
Definition to_float (s : string) : option F64.float :=
  let '(neg, cs) := sign (strip (list_ascii_of_string s)) in
  let word := string_of_list_ascii (map lower_ascii cs) in
  if (word =? "inf")%string || (word =? "infinity")%string
  then Some (S754_infinity neg)
  else if (word =? "nan")%string then Some S754_nan
  else
    match number cs with
    | Some (m, frac, rest) =>
        match exponent rest with
        | Some e =>
            Some (if (m =? 0)%Z then S754_zero neg
                  else F64.of_decimal (if neg then - m else m) (e - frac))
        | None => None
        end
    | None => None
    end.

End Str.

(** ** Exceptions *)

Inductive exn :=
| StripeError (cls : string) (msg : text)   (* stripe.error.StripeError, of subclass cls *)
| PyError (cls : string) (msg : text)      (* any other subclass of Exception *)
| PreventUpdate.                           (* dash.exceptions.PreventUpdate *)

(** [str(e)] *)
Definition str_exn (e : exn) : text :=
  match e with
  | StripeError _ msg => msg
  | PyError _ msg => msg
  | PreventUpdate => []
  end.

Inductive result (A : Type) :=
| Ok (a : A)
| Raise (e : exn).
Arguments Ok {A} a.
Arguments Raise {A} e.

(** [float(v)] *)
Definition py_float (v : pyval) : result F64.float :=
  match v with
  | PFloat x => Ok x
  | PInt z =>
      match F64.of_Z z with
      | S754_infinity _ =>
          Raise (PyError "OverflowError" [Lit "int too large to convert to float"])
      | x => Ok x
      end
  | PStr s =>
      match Str.to_float s with
      | Some x => Ok x
      | None =>
          Raise (PyError "ValueError"
                   [Lit "could not convert string to float: "; Fmt (PStr s) "!r"])
      end
  | PNone =>
      Raise (PyError "TypeError"
               [Lit "float() argument must be a string or a real number, not 'NoneType'"])
  end.

(** [int(x)] for a float [x] *)
Definition py_int (x : F64.float) : result Z :=
  match F64.trunc x with
  | Some z => Ok z
  | None =>
      match x with
      | S754_nan =>
          Raise (PyError "ValueError" [Lit "cannot convert float NaN to integer"])
      | _ =>
          Raise (PyError "OverflowError" [Lit "cannot convert float infinity to integer"])
      end
  end.

(** ** Dash components, without their styling *)

Record trace := {
  tr_kind : string;                 (* "Bar" or "Scatter" *)
  tr_name : string;
  tr_x : list Z;
  tr_y : list pyval;
  tr_yaxis : string
}.

Record figure := {
  fig_title : string;
  fig_annotation : option string;
  fig_traces : list trace
}.

#[warnings="-register-all"]
Inductive html :=
| Node (tag : string) (attrs : list (string * text)) (children : list html)
| Leaf (t : text)
| Graph (id : string) (fig : figure).

(** A callback output: a new value for the component property, or
    [dash.no_update]. *)
Inductive update (A : Type) :=
| NoUpdate
| Set_ (a : A).
Arguments NoUpdate {A}.
Arguments Set_ {A} a.

Definition apply_update {A : Type} (u : update A) (old : A) : A :=
  match u with
  | NoUpdate => old
  | Set_ a => a
  end.

(** ** The provider: objects, requests and the [stripe] package *)

Record product := {
  prod_id : string;
  prod_name : string;
  prod_description : option string;
  prod_images : list string
}.

Record price := {
  pr_id : string;
  pr_unit_amount : option Z;
  pr_currency : string;
  pr_recurring : option string         (* the interval, when recurring *)
}.

Record payment_intent := {
  pi_status : string;
  pi_amount : Z;
  pi_currency : string;
  pi_created : Z;
  pi_description : option string
}.

Record session := {
  sess_id : string;
  sess_url : string
}.

Record account := {
  acct_email : string;
  acct_id : string;
  acct_country : string;
  acct_default_currency : string
}.

(** The keyword arguments of [stripe.Product.create]: a key the code
    leaves out of the dict is [None] here. *)
Record product_data := {
  pd_name : string;
  pd_description : option string;
  pd_images : option (list string);
  pd_metadata : option (string * string)
}.

(** The keyword arguments of [stripe.Price.create]. *)
Record price_data := {
  prc_product : string;
  prc_unit_amount : Z;
  prc_currency : string;
  prc_nickname : option string;
  prc_recurring : option string        (* [{'interval': i}] *)
}.

(** The keyword arguments of [stripe.checkout.Session.create]. *)
Record session_params := {
  payment_method_types : list string;
  line_items : list (string * Z);      (* price, quantity *)
  mode : string;
  success_url : string;
  cancel_url : string
}.

(** One call of the [stripe] package. *)
Inductive call :=
| Product_create (d : product_data)
| Price_create (d : price_data)
| Product_list (limit : Z)
| Price_list (product : string) (limit : Z)
| PaymentIntent_list (limit : Z) (created_gte : option Z)
| Customer_list (limit : Z)
| Account_retrieve
| Session_create (p : session_params).

(** The world outside the process: the provider, which answers each call
    with a value or an exception and may change by it, and the clock.
    A call is made with the credential then held in [stripe.api_key]. *)
Class Stripe (W : Type) := {
  do_Product_create : option string -> product_data -> W -> result product * W;
  do_Price_create : option string -> price_data -> W -> result price * W;
  do_Product_list : option string -> Z -> W -> result (list product) * W;
  do_Price_list : option string -> string -> Z -> W -> result (list price) * W;
  do_PaymentIntent_list :
    option string -> Z -> option Z -> W -> result (list payment_intent) * W;
  do_Customer_list : option string -> Z -> W -> result nat * W;
  do_Account_retrieve : option string -> W -> result account * W;
  do_Session_create : option string -> session_params -> W -> result session * W;
  (** [int((datetime.now() - timedelta(days=d)).timestamp())] *)
  timestamp_days_ago : Z -> W -> Z;
  (** [datetime.fromtimestamp(t).date()], as a day number *)
  local_date : Z -> Z
}.

(** ** State and exceptions *)

Record state (W : Type) := {
  world : W;
  api_key : option string;       (* stripe.api_key *)
  calls : list call;             (* provider calls so far, oldest first *)
  tabs : list string;            (* URLs given to webbrowser.open_new_tab *)
  stdout : list text             (* lines printed *)
}.
Arguments world {W} s.
Arguments api_key {W} s.
Arguments calls {W} s.
Arguments tabs {W} s.
Arguments stdout {W} s.

Definition M (W A : Type) : Type := state W -> result A * state W.

Definition ret {W A} (a : A) : M W A := fun s => (Ok a, s).

Definition raise {W A} (e : exn) : M W A := fun s => (Raise e, s).

Definition bind {W A B} (m : M W A) (k : A -> M W B) : M W B :=
  fun s =>
    match m s with
    | (Ok a, s') => k a s'
    | (Raise e, s') => (Raise e, s')
    end.

(** [try: m  except Exception as e: h e] *)
Definition try_except {W A} (m : M W A) (h : exn -> M W A) : M W A :=
  fun s =>
    match m s with
    | (Ok a, s') => (Ok a, s')
    | (Raise e, s') => h e s'
    end.

Definition lift {W A} (r : result A) : M W A := fun s => (r, s).

Declare Scope py_scope.
Delimit Scope py_scope with py.
Notation "x <- m ;; k" := (bind m (fun x => k))
  (at level 61, m at next level, right associativity) : py_scope.
Notation "m ;;; k" := (bind m (fun _ => k))
  (at level 61, right associativity) : py_scope.
Local Open Scope py_scope.

Section Package.

Context {W : Type} `{Stripe W}.

(** A provider operation as the code calls it: the call is logged, the
    provider answers, the world moves on. *)
Definition request {A} (c : call) (op : option string -> W -> result A * W)
  : M W A :=
  fun s =>
    let '(r, w) := op (api_key s) (world s) in
    (r, {| world := w; api_key := api_key s; calls := (calls s ++ [c])%list;
           tabs := tabs s; stdout := stdout s |}).

Definition stripe_Product_create (d : product_data) : M W product :=
  request (Product_create d) (fun k => do_Product_create k d).

Definition stripe_Price_create (d : price_data) : M W price :=
  request (Price_create d) (fun k => do_Price_create k d).

Definition stripe_Product_list (limit : Z) : M W (list product) :=
  request (Product_list limit) (fun k => do_Product_list k limit).

Definition stripe_Price_list (product : string) (limit : Z) : M W (list price) :=
  request (Price_list product limit) (fun k => do_Price_list k product limit).

Definition stripe_PaymentIntent_list (limit : Z) (created_gte : option Z)
  : M W (list payment_intent) :=
  request (PaymentIntent_list limit created_gte)
          (fun k => do_PaymentIntent_list k limit created_gte).

Definition stripe_Customer_list (limit : Z) : M W nat :=
  request (Customer_list limit) (fun k => do_Customer_list k limit).

Definition stripe_Account_retrieve : M W account :=
  request Account_retrieve (fun k => do_Account_retrieve k).

Definition stripe_Session_create (p : session_params) : M W session :=
  request (Session_create p) (fun k => do_Session_create k p).

(** [stripe.api_key = k] *)
Definition set_api_key (k : option string) : M W unit :=
  fun s => (Ok tt, {| world := world s; api_key := k; calls := calls s;
                      tabs := tabs s; stdout := stdout s |}).

Definition print (t : text) : M W unit :=
  fun s => (Ok tt, {| world := world s; api_key := api_key s; calls := calls s;
                      tabs := tabs s; stdout := (stdout s ++ [t])%list |}).

(** [webbrowser.open_new_tab(url)] *)
Definition open_new_tab (url : string) : M W unit :=
  fun s => (Ok tt, {| world := world s; api_key := api_key s; calls := calls s;
                      tabs := (tabs s ++ [url])%list; stdout := stdout s |}).

(** The clock and the time zone, read without changing anything. *)
Definition thirty_days_ago_now : M W Z :=
  fun s => (Ok (timestamp_days_ago 30 (world s)), s).

(** A [for] loop that collects one result per element. *)
Fixpoint for_each {A B} (f : A -> M W B) (l : list A) : M W (list B) :=
  match l with
  | [] => ret []
  | a :: l' => b <- f a ;; bs <- for_each f l' ;; ret (b :: bs)
  end.

(** The state [s] after the provider calls [l] that left the world [w]. *)
Definition with_calls (s : state W) (w : W) (l : list call) : state W :=
  {| world := w; api_key := api_key s; calls := (calls s ++ l)%list;
     tabs := tabs s; stdout := stdout s |}.

(** The calls that only read from the provider. *)
Definition is_read (c : call) : Prop :=
  match c with
  | Product_list _ | Price_list _ _ | PaymentIntent_list _ _
  | Customer_list _ | Account_retrieve => True
  | Product_create _ | Price_create _ | Session_create _ => False
  end.

(** [s'] is [s] after some provider calls, each satisfying [P], and
    nothing else. *)
Definition after_calls (P : call -> Prop) (s s' : state W) : Prop :=
  exists w l, s' = with_calls s w l /\ Forall P l.

(** The action [m] prints some lines and does nothing else. *)
Definition only_prints (m : M W unit) : Prop :=
  forall s, exists lines,
    m s = (Ok tt, {| world := world s; api_key := api_key s; calls := calls s;
                     tabs := tabs s; stdout := (stdout s ++ lines)%list |}).

End Package.

(** ** pages/home.py: the catalog *)

Module Home.

(** One row of [products_df]. *)
Record row := {
  product_id : string;
  product_name : string;
  description : string;
  price_id : string;
  unit_amount : pyval;
  currency : string;
  recurring : string;
  image : option string
}.

(** What the module holds once its body has run. *)
Record module_state := {
  products_df : list row;
  error_message : option text;
  layout : html
}.

Definition make_row (product : product) (price : price) : row :=
  {| product_id := prod_id product;
     product_name := prod_name product;
     description := or_else (prod_description product) "No description";
     price_id := pr_id price;
     unit_amount :=
       match pr_unit_amount price with
       | Some (Zpos _ as a) | Some (Zneg _ as a) => PFloat (F64.ratio a 100)
       | Some Z0 | None => PInt 0
       end;
     currency := Str.upper (pr_currency price);
     recurring := match pr_recurring price with
                  | Some _ => "Yes"
                  | None => "No"
                  end;
     image := match prod_images product with
              | u :: _ => Some u
              | [] => None
              end |}.

Definition placeholder : string :=
  "https://via.placeholder.com/300x200?text=No+Image".

Definition card (idx : nat) (product : row) : html :=
  Node "Div" []
    [ Node "Div" []
        [ Node "Img" [("src", [Lit (or_else (image product) placeholder)])] [] ];
      Node "Div" []
        [ Node "H3" [] [Leaf [Lit (product_name product)]];
          Node "P" [] [Leaf [Lit (description product)]];
          Node "Div" []
            [ Node "H4" []
                [Leaf [Lit "$"; Fmt (unit_amount product) ".2f"; Lit " ";
                       Fmt (PStr (currency product)) ""]];
              Node "P" []
                [Leaf [Fmt (PStr (if (recurring product =? "Yes")%string
                                  then "Subscription"
                                  else "One-time payment")) ""]] ];
          Node "Button"
            [ ("id", [Lit "buy-button"; Fmt (PInt (Z.of_nat idx)) ""]);
              ("n_clicks", [Fmt (PInt 0) ""]);
              ("data-price-id", [Lit (price_id product)]) ]
            [Leaf [Lit "Buy Now"]] ] ].

Fixpoint cards_from (idx : nat) (rows : list row) : list html :=
  match rows with
  | [] => []
  | r :: rows' => card idx r :: cards_from (S idx) rows'
  end.

Definition create_product_cards (products_df : list row) : html :=
  match products_df with
  | [] => Node "P" [] [Leaf [Lit "No products found in your Stripe account."]]
  | _ => Node "Div" [] (cards_from 0 products_df)
  end.

Definition page_layout (products_df : list row) (error_message : option text)
  : html :=
  Node "Div" []
    [ Node "Div" []
        [ Node "H2" [] [Leaf [Lit "Available Products"]];
          Node "Div" [("id", [Lit "error-message"])]
            match error_message with
            | Some msg => [Node "Div" [] [Leaf msg]]
            | None => []
            end;
          Node "Div" [("id", [Lit "checkout-url"])] [];
          Node "Div" [("id", [Lit "products-container"])]
            [create_product_cards products_df] ] ].

(** The first index whose click count is positive: the loop with
    [break] over [enumerate(n_clicks)]. *)
Fixpoint first_clicked (i : nat) (n_clicks : list Z) : option nat :=
  match n_clicks with
  | [] => None
  | clicks :: rest => if 0 <? clicks then Some i else first_clicked (S i) rest
  end.

Definition checkout_params (r : row) : session_params :=
  {| payment_method_types := ["card"];
     line_items := [(price_id r, 1)];
     mode := if (recurring r =? "Yes")%string then "subscription" else "payment";
     success_url := "http://127.0.0.1:2245/?success=true";
     cancel_url := "http://127.0.0.1:2245/?canceled=true" |}.

Section Page.

Context {W : Type} `{Stripe W}.

Definition fetch_products_data : M W (list row) :=
  products <- stripe_Product_list 100 ;;
  rows <- for_each
            (fun product =>
               prices <- stripe_Price_list (prod_id product) 10 ;;
               ret (map (make_row product) prices))
            products ;;
  ret (List.concat rows).

(** The module body: it runs once, when the module is imported. *)
Definition import_module : M W module_state :=
  r <- try_except
         (df <- fetch_products_data ;; ret (df, None))
         (fun e =>
            ret ([], Some (Lit "Error fetching Stripe products: " :: str_exn e))) ;;
  ret {| products_df := fst r;
         error_message := snd r;
         layout := page_layout (fst r) (snd r) |}.

(** [.iloc[i]] *)
Definition iloc (df : list row) (i : nat) : M W row :=
  match nth_error df i with
  | Some r => ret r
  | None =>
      raise (PyError "IndexError"
               [Lit "single positional indexer is out-of-bounds"])
  end.

(** The buy callback. [triggered] is [callback_context.triggered], the
    buttons whose click count changed in this request; [n_clicks] holds
    the click count of every button, in card order. The module's
    [products_df] is read as a global. *)
Definition handle_buy_button (m : module_state)
           (triggered : list nat) (n_clicks : list Z) : M W string :=
  match triggered with
  | [] => raise PreventUpdate
  | _ :: _ =>
      if forallb (fun click => click =? 0) n_clicks then raise PreventUpdate
      else
        match first_clicked 0 n_clicks with
        | None => raise PreventUpdate
        | Some clicked_index =>
            try_except
              (r <- iloc (products_df m) clicked_index ;;
               session <- stripe_Session_create (checkout_params r) ;;
               open_new_tab (sess_url session) ;;;
               ret (sess_url session))
              (fun e =>
                 print (Lit "Error creating checkout session: " :: str_exn e) ;;;
                 raise PreventUpdate)
        end
  end.

End Page.

End Home.

(** ** pages/create_product.py: the creation form *)

Module CreateProduct.

(** The values of the ten form components. *)
Record form := {
  product_name : option string;
  product_description : option string;
  product_image : option string;
  price_type : string;
  recurring_interval : string;
  price_amount : pyval;
  currency : string;
  price_nickname : option string;
  metadata_key : option string;
  metadata_value : option string
}.

(** The part of the page that callbacks read and write. *)
Record page := {
  create_message : option html;      (* children of 'create-message' *)
  recent_products : option html;     (* children of 'recent-products' *)
  fields : form;
  n_clicks : Z                       (* of 'create-product-button' *)
}.

(** The page as [layout] declares it. *)
Definition initial_page : page :=
  {| create_message := None;
     recent_products := None;
     fields := {| product_name := None; product_description := None;
                  product_image := None; price_type := "one_time";
                  recurring_interval := "month"; price_amount := PNone;
                  currency := "usd"; price_nickname := None;
                  metadata_key := None; metadata_value := None |};
     n_clicks := 0 |}.

(** The nine [Output]s of [create_product], in the order of its
    decorator. *)
Record outputs := {
  out_create_message : update html;
  out_recent_products : update html;
  out_product_name : update (option string);
  out_product_description : update (option string);
  out_product_image : update (option string);
  out_price_amount : update pyval;
  out_price_nickname : update (option string);
  out_metadata_key : update (option string);
  out_metadata_value : update (option string)
}.

Definition toggle_interval_display (price_type : string) : string :=
  if (price_type =? "recurring")%string then "block" else "none".

(** A non-empty field, as [if field:] selects it. *)
Definition present (o : option string) : option string :=
  match o with
  | Some s => if (s =? "")%string then None else Some s
  | None => None
  end.

(** [int(float(amount) * 100)] *)
Definition amount_to_cents (amount : pyval) : result Z :=
  match py_float amount with
  | Ok x => py_int (F64.mul x (F64.of_Z 100))
  | Raise e => Raise e
  end.

Definition error_box (msg : text) : html :=
  Node "Div" [] [Node "Div" [] [Leaf msg]].

Definition validation_error : html :=
  error_box [Lit "❌ Error: Product name and price amount are required."].

Definition stripe_error (e : exn) : html :=
  error_box (Lit "❌ Stripe Error: " :: str_exn e).

Definition unexpected_error (e : exn) : html :=
  error_box (Lit "❌ Error: " :: str_exn e).

(** The message of the [except] clause that catches [e]. *)
Definition error_of (e : exn) : html :=
  match e with
  | StripeError _ _ => stripe_error e
  | _ => unexpected_error e
  end.

(** [return error_msg, dash.no_update, ..., dash.no_update] *)
Definition only_message (error_msg : html) : outputs :=
  {| out_create_message := Set_ error_msg;
     out_recent_products := NoUpdate;
     out_product_name := NoUpdate;
     out_product_description := NoUpdate;
     out_product_image := NoUpdate;
     out_price_amount := NoUpdate;
     out_price_nickname := NoUpdate;
     out_metadata_key := NoUpdate;
     out_metadata_value := NoUpdate |}.

(** [return success_msg, recent_products, '', '', '', '', '', '', ''] *)
Definition cleared (success_msg recent : html) : outputs :=
  {| out_create_message := Set_ success_msg;
     out_recent_products := Set_ recent;
     out_product_name := Set_ (Some "");
     out_product_description := Set_ (Some "");
     out_product_image := Set_ (Some "");
     out_price_amount := Set_ (PStr "");
     out_price_nickname := Set_ (Some "");
     out_metadata_key := Set_ (Some "");
     out_metadata_value := Set_ (Some "") |}.

Definition make_product_data (name description image meta_key meta_value
                              : option string) : product_data :=
  {| pd_name := match name with Some s => s | None => "" end;
     pd_description := present description;
     pd_images := match present image with
                  | Some u => Some [u]
                  | None => None
                  end;
     pd_metadata := match present meta_key, present meta_value with
                    | Some k, Some v => Some (k, v)
                    | _, _ => None
                    end |}.

Definition make_price_data (product : product) (amount_cents : Z)
           (currency : string) (nickname : option string)
           (price_type interval : string) : price_data :=
  {| prc_product := prod_id product;
     prc_unit_amount := amount_cents;
     prc_currency := currency;
     prc_nickname := present nickname;
     prc_recurring := if (price_type =? "recurring")%string
                      then Some interval else None |}.

(** The last line of the confirmation. *)
Definition price_line (amount : pyval) (currency price_type interval : string)
  : text :=
  ([Lit "Price: $"; Fmt amount ""; Lit " "; Fmt (PStr (Str.upper currency)) ""]
   ++ (if (price_type =? "recurring")%string
       then [Lit " per "; Fmt (PStr interval) ""]
       else []))%list.

Definition success_msg (product : product) (price : price) (amount : pyval)
           (currency price_type interval : string) : html :=
  Node "Div" []
    [ Node "Div" []
        [ Node "H4" [] [Leaf [Lit "✅ Product Created Successfully!"]];
          Node "P" [] [Leaf [Lit "Product ID: "; Fmt (PStr (prod_id product)) ""]];
          Node "P" [] [Leaf [Lit "Product Name: "; Fmt (PStr (prod_name product)) ""]];
          Node "P" [] [Leaf [Lit "Price ID: "; Fmt (PStr (pr_id price)) ""]];
          Node "P" [] [Leaf (price_line amount currency price_type interval)] ] ].

Definition price_info (prices : list price) : text :=
  match prices with
  | [] => [Lit "No price set"]
  | price :: _ =>
      let amount := match pr_unit_amount price with
                    | Some (Zpos _ as a) | Some (Zneg _ as a) =>
                        PFloat (F64.ratio a 100)
                    | Some Z0 | None => PInt 0
                    end in
      let currency := Str.upper (pr_currency price) in
      match pr_recurring price with
      | Some interval =>
          [Lit "$"; Fmt amount ".2f"; Lit " "; Fmt (PStr currency) "";
           Lit " per "; Fmt (PStr interval) ""]
      | None =>
          [Lit "$"; Fmt amount ".2f"; Lit " "; Fmt (PStr currency) ""]
      end
  end.

Definition recent_card (product : product) (price_info : text) : html :=
  Node "Div" []
    [ Node "Div" []
        [ Node "H4" [] [Leaf [Lit (prod_name product)]];
          Node "P" [] [Leaf [Lit (or_else (prod_description product) "No description")]];
          Node "P" [] [Leaf price_info];
          Node "Small" [] [Leaf [Lit "ID: "; Fmt (PStr (prod_id product)) ""]] ] ].

Section Page.

Context {W : Type} `{Stripe W}.

Definition fetch_recent_products : M W html :=
  try_except
    (products <- stripe_Product_list 5 ;;
     match products with
     | [] => ret (Node "P" [] [Leaf [Lit "No products found."]])
     | _ :: _ =>
         cards <- for_each
                    (fun product =>
                       prices <- stripe_Price_list (prod_id product) 1 ;;
                       ret (recent_card product (price_info prices)))
                    products ;;
         ret (Node "Div" [] cards)
     end)
    (fun e =>
       ret (Node "P" [] [Leaf (Lit "Error fetching products: " :: str_exn e)])).

Definition create_product (n_clicks : Z)
           (name description image : option string)
           (price_type interval : string) (amount : pyval)
           (currency : string)
           (nickname meta_key meta_value : option string) : M W outputs :=
  if n_clicks =? 0 then raise PreventUpdate
  else if negb (truthy (of_field name)) || negb (truthy amount)
  then ret (only_message validation_error)
  else
    try_except
      (amount_cents <- lift (amount_to_cents amount) ;;
       product <- stripe_Product_create
                    (make_product_data name description image meta_key meta_value) ;;
       price <- stripe_Price_create
                  (make_price_data product amount_cents currency nickname
                                   price_type interval) ;;
       recent <- fetch_recent_products ;;
       ret (cleared (success_msg product price amount currency price_type interval)
                    recent))
      (fun e =>
         match e with
         | StripeError _ _ => ret (only_message (stripe_error e))
         | _ => ret (only_message (unexpected_error e))
         end).

Definition load_recent_products (n_clicks : Z) : M W html :=
  if n_clicks =? 0 then fetch_recent_products else raise PreventUpdate.

(** How Dash applies what a callback returns: each output that is not
    [no_update] replaces its component property; a property that is not
    an output of the callback keeps its value. *)
Definition apply_outputs (o : outputs) (p : page) : page :=
  let f := fields p in
  {| create_message :=
       apply_update (match out_create_message o with
                     | Set_ h => Set_ (Some h)
                     | NoUpdate => NoUpdate
                     end) (create_message p);
     recent_products :=
       apply_update (match out_recent_products o with
                     | Set_ h => Set_ (Some h)
                     | NoUpdate => NoUpdate
                     end) (recent_products p);
     fields :=
       {| product_name := apply_update (out_product_name o) (product_name f);
          product_description :=
            apply_update (out_product_description o) (product_description f);
          product_image := apply_update (out_product_image o) (product_image f);
          price_type := price_type f;
          recurring_interval := recurring_interval f;
          price_amount := apply_update (out_price_amount o) (price_amount f);
          currency := currency f;
          price_nickname :=
            apply_update (out_price_nickname o) (price_nickname f);
          metadata_key := apply_update (out_metadata_key o) (metadata_key f);
          metadata_value :=
            apply_update (out_metadata_value o) (metadata_value f) |};
     n_clicks := n_clicks p |}.

Definition set_recent (h : html) (p : page) : page :=
  {| create_message := create_message p;
     recent_products := Some h;
     fields := fields p;
     n_clicks := n_clicks p |}.

(** A callback run by Dash: a callback that raises ([PreventUpdate] or
    anything else) updates nothing. *)
Definition dispatch {A} (cb : M W A) (apply : A -> page -> page) (p : page)
  : M W page :=
  try_except (o <- cb ;; ret (apply o p)) (fun _ => ret p).

Definition run_create_product (p : page) : M W outputs :=
  let f := fields p in
  create_product (n_clicks p)
                 (product_name f) (product_description f) (product_image f)
                 (price_type f) (recurring_interval f) (price_amount f)
                 (currency f) (price_nickname f)
                 (metadata_key f) (metadata_value f).

(** A click on 'create-product-button': the click count goes up by one
    and the two callbacks that have it as [Input] run. *)
Definition click (p : page) : M W page :=
  let p0 := {| create_message := create_message p;
               recent_products := recent_products p;
               fields := fields p;
               n_clicks := n_clicks p + 1 |} in
  p1 <- dispatch (run_create_product p0) apply_outputs p0 ;;
  dispatch (load_recent_products (n_clicks p0)) set_recent p1.

(** The ways a submission of the form [f] fails in the state [s]: local
    validation, the conversion of the amount, or an exception of the
    provider at either create step. *)
Definition submission_fails (f : form) (s : state W) : Prop :=
  truthy (of_field (product_name f)) = false
  \/ truthy (price_amount f) = false
  \/ (exists e, amount_to_cents (price_amount f) = Raise e)
  \/ (exists cents e w,
        amount_to_cents (price_amount f) = Ok cents
        /\ do_Product_create
             (api_key s)
             (make_product_data (product_name f) (product_description f)
                                (product_image f) (metadata_key f) (metadata_value f))
             (world s) = (Raise e, w))
  \/ (exists cents product w e w',
        amount_to_cents (price_amount f) = Ok cents
        /\ do_Product_create
             (api_key s)
             (make_product_data (product_name f) (product_description f)
                                (product_image f) (metadata_key f) (metadata_value f))
             (world s) = (Ok product, w)
        /\ do_Price_create
             (api_key s)
             (make_price_data product cents (currency f) (price_nickname f)
                              (price_type f) (recurring_interval f))
             w = (Raise e, w')).

End Page.

(** Every field of the form is empty again, or, for a choice, empty or
    back at the value the layout gives it. *)
Definition all_fields_cleared (f : form) : Prop :=
  product_name f = Some ""
  /\ product_description f = Some ""
  /\ product_image f = Some ""
  /\ (price_type f = "" \/ price_type f = price_type (fields initial_page))
  /\ (recurring_interval f = ""
      \/ recurring_interval f = recurring_interval (fields initial_page))
  /\ price_amount f = PStr ""
  /\ (currency f = "" \/ currency f = currency (fields initial_page))
  /\ price_nickname f = Some ""
  /\ metadata_key f = Some ""
  /\ metadata_value f = Some "".

End CreateProduct.

(** ** pages/analytics.py: revenue analytics *)

Module Analytics.

(** One row of [revenue_df]. *)
Record row := {
  date : Z;
  amount : F64.float;
  currency : string;
  description : string
}.

Record module_state := {
  revenue_df : list row;
  error_message : option text;
  total_revenue : pyval;
  total_transactions : Z;
  avg_transaction : pyval;
  layout : html
}.

Definition make_row (local_date : Z -> Z) (payment : payment_intent) : row :=
  {| date := local_date (pi_created payment);
     amount := F64.ratio (pi_amount payment) 100;
     currency := Str.upper (pi_currency payment);
     description := or_else (pi_description payment) "Payment" |}.

Definition succeeded (payment : payment_intent) : bool :=
  (pi_status payment =? "succeeded")%string.

(** [Series.sum()] of a float column: the values added in row order.
    (numpy adds a column of eight values or more in blocks, in another
    order; what is proved below does not depend on the order.) *)
Definition series_sum (values : list F64.float) : F64.float :=
  fold_left F64.add values F64.zero.

(** [Series.mean()]: the column's sum over its length. *)
Definition series_mean (values : list F64.float) : F64.float :=
  F64.div (series_sum values) (F64.of_Z (Z.of_nat (List.length values))).

(** The sum of one group of a [groupby]: pandas adds the group's values in
    row order and carries a Kahan compensation term. *)
Definition kahan_step (acc : F64.float * F64.float) (val : F64.float)
  : F64.float * F64.float :=
  let '(sumx, compensation) := acc in
  let y := F64.sub val compensation in
  let t := F64.add sumx y in
  let c := F64.sub (F64.sub t sumx) y in
  (t, match c with S754_nan => F64.zero | _ => c end).

Definition group_sum (values : list F64.float) : F64.float :=
  fst (fold_left kahan_step values (F64.zero, F64.zero)).

(** The exact sum of a list of integers. *)
Definition sumZ (l : list Z) : Z := fold_right Z.add 0 l.

(** The group keys of [groupby('date')]: the dates present, ascending. *)
Fixpoint insert_key (d : Z) (keys : list Z) : list Z :=
  match keys with
  | [] => [d]
  | k :: keys' =>
      if d <? k then d :: keys
      else if d =? k then keys
      else k :: insert_key d keys'
  end.

Definition group_keys (df : list row) : list Z :=
  fold_right insert_key [] (map date df).

(** [df.groupby('date')]: each key with its rows, in row order. *)
Definition groupby_date (df : list row) : list (Z * list row) :=
  map (fun k => (k, filter (fun r => date r =? k) df)) (group_keys df).

(** One row of [daily_revenue]: date, revenue, volume. *)
Definition daily_revenue (df : list row) : list (Z * F64.float * Z) :=
  map (fun g => (fst g, group_sum (map amount (snd g)),
                 Z.of_nat (List.length (snd g))))
      (groupby_date df).

(** [.max()] of a column with at least one value. *)
Definition max_float (values : list F64.float) : F64.float :=
  match values with
  | [] => S754_nan
  | v :: values' => fold_left F64.max values' v
  end.

Definition max_count (values : list Z) : Z :=
  match values with
  | [] => 0
  | v :: values' => fold_left Z.max values' v
  end.

Definition create_revenue_chart (revenue_df : list row) : figure :=
  match revenue_df with
  | [] =>
      {| fig_title := "Revenue Overview (Last 30 Days)";
         fig_annotation := Some "No payment data found in the last 30 days";
         fig_traces := [] |}
  | _ :: _ =>
      let daily := daily_revenue revenue_df in
      {| fig_title := "Revenue and Transaction Volume (Last 30 Days)";
         fig_annotation := None;
         fig_traces :=
           [ {| tr_kind := "Bar"; tr_name := "Daily Revenue ($)";
                tr_x := map (fun d => fst (fst d)) daily;
                tr_y := map (fun d => PFloat (snd (fst d))) daily;
                tr_yaxis := "y" |};
             {| tr_kind := "Scatter"; tr_name := "Transaction Volume";
                tr_x := map (fun d => fst (fst d)) daily;
                tr_y := map (fun d => PInt (snd d)) daily;
                tr_yaxis := "y2" |} ] |}
  end.

Definition summary_card (value : text) (label : string) : html :=
  Node "Div" [] [Node "Div" [] [Node "H3" [] [Leaf value];
                                Node "P" [] [Leaf [Lit label]]]].

Definition create_summary_cards (total_revenue : pyval) (total_transactions : Z)
           (avg_transaction : pyval) : html :=
  Node "Div" []
    [ summary_card [Lit "$"; Fmt total_revenue ",.2f"] "Total Revenue (30 days)";
      summary_card [Fmt (PInt total_transactions) ""] "Total Transactions";
      summary_card [Lit "$"; Fmt avg_transaction ".2f"] "Average Transaction" ].

(** The three metrics computed at module level. *)
Definition metrics (revenue_df : list row) : pyval * Z * pyval :=
  match revenue_df with
  | [] => (PInt 0, 0, PInt 0)
  | _ :: _ =>
      (PFloat (series_sum (map amount revenue_df)),
       Z.of_nat (List.length revenue_df),
       PFloat (series_mean (map amount revenue_df)))
  end.

(** The number shown as "transactions per day": [total_transactions / 30]. *)
Definition transactions_per_day (total_transactions : Z) : F64.float :=
  F64.ratio total_transactions 30.

(** The three lines of 'Key Insights'. *)
Definition insights (revenue_df : list row) (total_transactions : Z) : list text :=
  match revenue_df with
  | [] =>
      [ [Lit "ðŸ“Š Your busiest day had "; Fmt (PInt 0) ""; Lit " transactions"];
        [Lit "ðŸ’° No revenue data yet"];
        [Lit "ðŸ“ˆ Start accepting payments to see insights"] ]
  | _ :: _ =>
      [ [Lit "ðŸ“Š Your busiest day had ";
         Fmt (PInt (max_count (map (fun g => Z.of_nat (List.length (snd g)))
                                   (groupby_date revenue_df)))) "";
         Lit " transactions"];
        [Lit "ðŸ’° Your best revenue day was $";
         Fmt (PFloat (max_float (map (fun g => group_sum (map amount (snd g)))
                                     (groupby_date revenue_df)))) ".2f"];
        [Lit "ðŸ“ˆ You're averaging ";
         Fmt (PFloat (transactions_per_day total_transactions)) ".1f";
         Lit " transactions per day"] ]
  end.

Definition page_layout (revenue_df : list row) (error_message : option text)
           (total_revenue : pyval) (total_transactions : Z)
           (avg_transaction : pyval) : html :=
  Node "Div" []
    [ Node "Div" []
        [ Node "H2" [] [Leaf [Lit "Revenue Analytics"]];
          Node "Div" [("id", [Lit "analytics-error"])]
            match error_message with
            | Some msg => [Node "Div" [] [Leaf msg]]
            | None => []
            end;
          create_summary_cards total_revenue total_transactions avg_transaction;
          Graph "revenue-chart" (create_revenue_chart revenue_df);
          Node "Div" []
            [ Node "H3" [] [Leaf [Lit "Key Insights"]];
              Node "Div" []
                (map (fun t => Node "P" [] [Leaf t])
                     (insights revenue_df total_transactions)) ] ] ].

Section Page.

Context {W : Type} `{Stripe W}.

Definition fetch_revenue_data : M W (list row) :=
  thirty_days_ago <- thirty_days_ago_now ;;
  payments <- stripe_PaymentIntent_list 100 (Some thirty_days_ago) ;;
  ret (map (make_row local_date) (filter succeeded payments)).

(** The module body: it runs once, when the module is imported. *)
Definition import_module : M W module_state :=
  r <- try_except
         (df <- fetch_revenue_data ;; ret (df, None))
         (fun e =>
            ret ([], Some (Lit "Error fetching Stripe revenue data: " :: str_exn e))) ;;
  let '(total, count, avg) := metrics (fst r) in
  ret {| revenue_df := fst r;
         error_message := snd r;
         total_revenue := total;
         total_transactions := count;
         avg_transaction := avg;
         layout := page_layout (fst r) (snd r) total count avg |}.

End Page.

End Analytics.

(** ** app.py: the dashboard process *)

Module App.

Record app := {
  analytics : Analytics.module_state;
  home : Home.module_state
}.

Inductive view :=
| Catalog         (* path '/' *)
| AnalyticsView.  (* path '/analytics' *)

(** What Dash's [page_container] shows for a path: the [layout] attribute
    of the page's module. Both modules assign a component to [layout], not
    a function, so the component built when the module was imported is
    what every request gets. *)
Definition page_layout (a : app) (v : view) : html :=
  match v with
  | Catalog => Home.layout (home a)
  | AnalyticsView => Analytics.layout (analytics a)
  end.

Section Process.

Context {W : Type} `{Stripe W}.

(** The process start: [stripe.api_key = os.environ.get('STRIPE_SECRET_KEY')],
    then [Dash(__name__, use_pages=True, pages_folder='pages')] imports
    the page modules (in the order of the file system, taken here as
    alphabetical; the creation page calls nothing when imported). *)
Definition startup (STRIPE_SECRET_KEY : option string) : M W app :=
  set_api_key STRIPE_SECRET_KEY ;;;
  a <- Analytics.import_module ;;
  h <- Home.import_module ;;
  ret {| analytics := a; home := h |}.

(** One view load. *)
Definition load_view (a : app) (v : view) : M W html :=
  ret (page_layout a v).

End Process.

End App.

(** ** stripe_tests/stripe_api_basics.py: the connectivity check *)

Module ApiBasics.

Definition rule : text :=
  [Lit "=================================================="].

Section Script.

Context {W : Type} `{Stripe W}.

Fixpoint print_all (lines : list text) : M W unit :=
  match lines with
  | [] => ret tt
  | l :: lines' => print l ;;; print_all lines'
  end.

(** The body of the [try]. A line break that starts a printed string is
    an empty line of its own here. *)
Definition connection_test : M W unit :=
  account <- stripe_Account_retrieve ;;
  print_all
    [ [];
      [Lit "✅ Successfully connected to Stripe!"];
      [Lit "   Account Email: "; Fmt (PStr (acct_email account)) ""];
      [Lit "   Account ID: "; Fmt (PStr (acct_id account)) ""];
      [Lit "   Country: "; Fmt (PStr (acct_country account)) ""];
      [Lit "   Default Currency: "; Fmt (PStr (acct_default_currency account)) ""];
      [];
      [Lit "📦 Testing Product API..."] ] ;;;
  products <- stripe_Product_list 3 ;;
  print [Lit "   Found "; Fmt (PInt (Z.of_nat (List.length products))) "";
         Lit " products"] ;;;
  match products with
  | _ :: _ =>
      print [Lit "   Products:"] ;;;
      print_all (map (fun product =>
                        [Lit "   - "; Fmt (PStr (prod_name product)) "";
                         Lit " ("; Fmt (PStr (prod_id product)) ""; Lit ")"])
                     products)
  | [] => print [Lit "   No products found. Create some in your Stripe Dashboard!"]
  end ;;;
  print_all [ []; [Lit "👥 Testing Customer API..."] ] ;;;
  customers <- stripe_Customer_list 3 ;;
  print [Lit "   Found "; Fmt (PInt (Z.of_nat customers)) ""; Lit " customers"] ;;;
  print_all [ []; [Lit "💳 Testing Payment Intent API..."] ] ;;;
  payments <- stripe_PaymentIntent_list 3 None ;;
  print [Lit "   Found "; Fmt (PInt (Z.of_nat (List.length payments))) "";
         Lit " recent payment intents"] ;;;
  print_all
    [ []; rule;
      [Lit "🎉 All tests passed! Your Stripe connection is working."];
      [Lit "You're ready to run the tutorials!"] ].

Definition report (e : exn) : M W unit :=
  match e with
  | StripeError "AuthenticationError" msg =>
      print_all [ []; (Lit "❌ Authentication Error: " :: msg);
                  [Lit "   Please check your API key is correct"] ]
  | StripeError "APIConnectionError" msg =>
      print_all [ []; (Lit "❌ Network Error: " :: msg);
                  [Lit "   Please check your internet connection"] ]
  | _ =>
      print_all [ []; (Lit "❌ Unexpected Error: " :: str_exn e);
                  [Lit "   Please check the Stripe documentation"] ]
  end.

(** The script from the point where the key has passed both checks. *)
Definition connect (api_key : string) : M W Z :=
  set_api_key (Some api_key) ;;;
  try_except connection_test report ;;;
  print_all [ []; rule ] ;;;
  ret 0.

(** The whole script, for the value [os.environ.get('STRIPE_SECRET_KEY')];
    the result is the exit status. *)
Definition main (STRIPE_SECRET_KEY : option string) : M W Z :=
  print_all [ [Lit "Testing Stripe API Connection..."]; rule ] ;;;
  match CreateProduct.present STRIPE_SECRET_KEY with
  | None =>
      print_all
        [ [Lit "❌ ERROR: No STRIPE_SECRET_KEY found in environment variables!"];
          []; [Lit "Please create a .env file with:"];
          [Lit "STRIPE_SECRET_KEY=sk_test_your_key_here"] ] ;;;
      ret 1
  | Some api_key =>
      if Str.startswith api_key "sk_test_" then
        print [Lit "✅ Using TEST mode API key (safe for development)"] ;;;
        connect api_key
      else if Str.startswith api_key "sk_live_" then
        print_all [ [Lit "⚠️  WARNING: Using LIVE mode API key!"];
                    [Lit "   Be careful - this will create real charges!"] ] ;;;
        connect api_key
      else
        print [Lit "❌ Invalid API key format"] ;;;
        ret 1
  end.

End Script.

(** The credentials the script goes on with: non-empty, and starting with
    [sk_test_] or [sk_live_]. *)
Definition accepted (STRIPE_SECRET_KEY : option string) : bool :=
  match CreateProduct.present STRIPE_SECRET_KEY with
  | Some api_key =>
      Str.startswith api_key "sk_test_" || Str.startswith api_key "sk_live_"
  | None => false
  end.

End ApiBasics.

(** ** stripe_data/api_connected_test.py: the setup test *)

Module ApiConnectedTest.

Section Script.

Context {W : Type} `{Stripe W}.

(** The whole script, for the value [os.environ.get('STRIPE_SECRET_KEY')].
    A line break that starts a printed string is an empty line of its
    own. *)
Definition main (STRIPE_SECRET_KEY : option string) : M W unit :=
  set_api_key STRIPE_SECRET_KEY ;;;
  print [Lit "Environment variable STRIPE_SECRET_KEY: ";
         Fmt (of_field STRIPE_SECRET_KEY) ""] ;;;
  match CreateProduct.present STRIPE_SECRET_KEY with
  | None =>
      ApiBasics.print_all
        [ []; [Lit "❌ STRIPE_SECRET_KEY not found!"];
          []; [Lit "To set it:"];
          [Lit "1. In terminal before running:"];
          [Lit "   export STRIPE_SECRET_KEY='sk_test_your_key_here'"];
          []; [Lit "2. In PyCharm:"];
          [Lit "   Run → Edit Configurations → Environment variables"];
          [Lit "   Add: STRIPE_SECRET_KEY=sk_test_your_key_here"];
          []; [Lit "3. In VS Code:"];
          [Lit "   Create .env file with: STRIPE_SECRET_KEY=sk_test_your_key_here"] ]
  | Some _ =>
      print [Lit "✅ Stripe API key found!"] ;;;
      try_except
        (products <- stripe_Product_list 1 ;;
         print [Lit "✅ Connection successful! Found ";
                Fmt (PInt (Z.of_nat (List.length products))) "";
                Lit " product(s)"])
        (fun e => print (Lit "❌ Connection failed: " :: str_exn e))
  end.

End Script.

End ApiConnectedTest.

(** ** A scripted provider, for concrete runs *)

(** A provider that answers from a fixed script and never changes, and
    that refuses every call made without a credential, as the [stripe]
    package does. *)
Record script := {
  on_Product_create : product_data -> result product;
  on_Price_create : price_data -> result price;
  on_Product_list : result (list product);
  on_Price_list : string -> result (list price);
  on_PaymentIntent_list : result (list payment_intent);
  on_Session_create : session_params -> result session;
  thirty_days_ago : Z
}.

Definition no_api_key {A} : result A :=
  Raise (StripeError "AuthenticationError" [Lit "No API key provided."]).

Definition keyed {A} (key : option string) (r : result A) (w : script)
  : result A * script :=
  match key with
  | Some _ => (r, w)
  | None => (no_api_key, w)
  end.

#[export] Instance Scripted : Stripe script := {
  do_Product_create k d w := keyed k (on_Product_create w d) w;
  do_Price_create k d w := keyed k (on_Price_create w d) w;
  do_Product_list k _ w := keyed k (on_Product_list w) w;
  do_Price_list k p _ w := keyed k (on_Price_list w p) w;
  do_PaymentIntent_list k _ _ w := keyed k (on_PaymentIntent_list w) w;
  do_Customer_list k _ w := keyed k (Ok 0%nat) w;
  do_Account_retrieve k w :=
    keyed k (Ok {| acct_email := "owner@example.com"; acct_id := "acct_1";
                   acct_country := "US"; acct_default_currency := "usd" |}) w;
  do_Session_create k p w := keyed k (on_Session_create w p) w;
  timestamp_days_ago _ w := thirty_days_ago w;
  local_date t := t / 86400
}.

(** A process that has made no call yet. *)
Definition fresh (w : script) (key : option string) : state script :=
  {| world := w; api_key := key; calls := []; tabs := []; stdout := [] |}.

(** A small shop: every create succeeds, one product with one price is
    listed, and a checkout session is opened for whatever is asked. *)
Module Demo.

Definition key : option string := Some "sk_test_51Demo".

Definition widget : product :=
  {| prod_id := "prod_1"; prod_name := "Widget";
     prod_description := None; prod_images := [] |}.

Definition priced (d : price_data) : price :=
  {| pr_id := "price_1"; pr_unit_amount := Some (prc_unit_amount d);
     pr_currency := prc_currency d; pr_recurring := prc_recurring d |}.

Definition shop : script :=
  {| on_Product_create := fun _ => Ok widget;
     on_Price_create := fun d => Ok (priced d);
     on_Product_list := Ok [widget];
     on_Price_list := fun _ =>
       Ok [ {| pr_id := "price_1"; pr_unit_amount := Some 1250;
               pr_currency := "usd"; pr_recurring := None |} ];
     on_PaymentIntent_list := Ok [];
     on_Session_create := fun _ =>
       Ok {| sess_id := "cs_1"; sess_url := "https://checkout.stripe.com/c/cs_1" |};
     thirty_days_ago := 1700000000 |}.

(** The same shop with nothing to list. *)
Definition closed : script :=
  {| on_Product_create := on_Product_create shop;
     on_Price_create := on_Price_create shop;
     on_Product_list := Ok [];
     on_Price_list := fun _ => Ok [];
     on_PaymentIntent_list := Ok [];
     on_Session_create := on_Session_create shop;
     thirty_days_ago := 1700000000 |}.

Definition plan (id name : string) : product :=
  {| prod_id := id; prod_name := name;
     prod_description := None; prod_images := [] |}.

Definition paid (cents created : Z) : payment_intent :=
  {| pi_status := "succeeded"; pi_amount := cents; pi_currency := "usd";
     pi_created := created; pi_description := None |}.

(** A store with three plans, one price each, and three succeeded
    payments of 10.10, 20.20 and 30.30: the first on day 19676, the other
    two on day 19677; an abandoned payment is listed between them. *)
Definition store : script :=
  {| on_Product_create := on_Product_create shop;
     on_Price_create := on_Price_create shop;
     on_Product_list :=
       Ok [plan "prod_basic" "Basic"; plan "prod_pro" "Pro"; plan "prod_team" "Team"];
     on_Price_list := fun product =>
       if (product =? "prod_basic")%string then
         Ok [ {| pr_id := "price_basic"; pr_unit_amount := Some 1999;
                 pr_currency := "usd"; pr_recurring := None |} ]
       else if (product =? "prod_pro")%string then
         Ok [ {| pr_id := "price_pro"; pr_unit_amount := Some 4900;
                 pr_currency := "usd"; pr_recurring := Some "month" |} ]
       else
         Ok [ {| pr_id := "price_team"; pr_unit_amount := Some 9900;
                 pr_currency := "usd"; pr_recurring := None |} ];
     on_PaymentIntent_list :=
       Ok [ paid 1010 1700006400;
            {| pi_status := "requires_payment_method"; pi_amount := 500;
               pi_currency := "usd"; pi_created := 1700050000;
               pi_description := None |};
            paid 2020 1700092800;
            paid 3030 1700096400 ];
     on_Session_create := on_Session_create shop;
     thirty_days_ago := 1700000000 |}.

(** The form filled in with a name and an amount, the rest untouched. *)
Definition filled (name : string) (amount : pyval) : CreateProduct.page :=
  {| CreateProduct.create_message := None;
     CreateProduct.recent_products := None;
     CreateProduct.fields :=
       {| CreateProduct.product_name := Some name;
          CreateProduct.product_description := None;
          CreateProduct.product_image := None;
          CreateProduct.price_type := "one_time";
          CreateProduct.recurring_interval := "month";
          CreateProduct.price_amount := amount;
          CreateProduct.currency := "usd";
          CreateProduct.price_nickname := None;
          CreateProduct.metadata_key := None;
          CreateProduct.metadata_value := None |};
     CreateProduct.n_clicks := 0 |}.

(** A yearly subscription in euros. *)
Definition yearly : CreateProduct.page :=
  {| CreateProduct.create_message := None;
     CreateProduct.recent_products := None;
     CreateProduct.fields :=
       {| CreateProduct.product_name := Some "Widget";
          CreateProduct.product_description := Some "A widget";
          CreateProduct.product_image := None;
          CreateProduct.price_type := "recurring";
          CreateProduct.recurring_interval := "year";
          CreateProduct.price_amount := PFloat (F64.of_decimal 125 (-1));
          CreateProduct.currency := "eur";
          CreateProduct.price_nickname := None;
          CreateProduct.metadata_key := None;
          CreateProduct.metadata_value := None |};
     CreateProduct.n_clicks := 0 |}.

End Demo.

(** More worlds for concrete runs. *)
Module Demo2.

(** A shop that creates products but refuses every price. *)
Definition declining : script :=
  {| on_Product_create := on_Product_create Demo.shop;
     on_Price_create := fun _ =>
       Raise (StripeError "InvalidRequestError" [Lit "Amount must be at least 50 cents"]);
     on_Product_list := on_Product_list Demo.shop;
     on_Price_list := on_Price_list Demo.shop;
     on_PaymentIntent_list := on_PaymentIntent_list Demo.shop;
     on_Session_create := fun _ =>
       Raise (StripeError "InvalidRequestError" [Lit "No such price"]);
     thirty_days_ago := 1700000000 |}.

(** A provider that cannot be reached. *)
Definition unreachable : script :=
  {| on_Product_create := fun _ =>
       Raise (StripeError "APIConnectionError" [Lit "Network is unreachable"]);
     on_Price_create := fun _ =>
       Raise (StripeError "APIConnectionError" [Lit "Network is unreachable"]);
     on_Product_list :=
       Raise (StripeError "APIConnectionError" [Lit "Network is unreachable"]);
     on_Price_list := fun _ =>
       Raise (StripeError "APIConnectionError" [Lit "Network is unreachable"]);
     on_PaymentIntent_list :=
       Raise (StripeError "APIConnectionError" [Lit "Network is unreachable"]);
     on_Session_create := fun _ =>
       Raise (StripeError "APIConnectionError" [Lit "Network is unreachable"]);
     thirty_days_ago := 1700000000 |}.

(** The catalog module as imported from the demo store: three cards. *)
Definition catalog : Home.module_state :=
  match fst (Home.import_module (fresh Demo.store Demo.key)) with
  | Ok m => m
  | Raise _ => {| Home.products_df := []; Home.error_message := None;
                  Home.layout := Leaf [] |}
  end.

(** Its second row, the monthly plan. *)
Definition pro_row : Home.row :=
  {| Home.product_id := "prod_pro"; Home.product_name := "Pro";
     Home.description := "No description"; Home.price_id := "price_pro";
     Home.unit_amount := PFloat (F64.of_Z 49); Home.currency := "USD";
     Home.recurring := "Yes"; Home.image := None |}.

(** The catalog module as imported while the provider was unreachable:
    no card. *)
Definition failed_catalog : Home.module_state :=
  match fst (Home.import_module (fresh unreachable Demo.key)) with
  | Ok m => m
  | Raise _ => {| Home.products_df := []; Home.error_message := None;
                  Home.layout := Leaf [] |}
  end.

End Demo2.

(** ** Amounts in whole minor units *)

(** The amount of [c] minor units as the number input delivers it: the
    float nearest to [c / 100]. *)
Definition entered (c : Z) : pyval := PFloat (F64.of_decimal c (-2)).

(** The conversion of the entered amount gives [c] or [c - 1]. *)
Definition converts_within_one (c : Z) : bool :=
  match CreateProduct.amount_to_cents (entered c) with
  | Ok z => (z =? c) || (z =? c - 1)
  | Raise _ => false
  end.

(** [f] holds of 1, ..., [n]. *)
Fixpoint holds_upto (f : Z -> bool) (n : nat) : bool :=
  match n with
  | O => true
  | S n' => f (Z.of_nat n) && holds_upto f n'
  end.

(** * Concrete checks of the Python model *)

Example float_19_99 :
  F64.of_decimal 1999 (-2) = S754_finite false 5626684784446013 (-48).
Proof. vm_compute. reflexivity. Qed.

(** 19.99 * 100 is 1998.9999999999998, and [int] of it is 1998. *)
Example float_19_99_times_100 :
  F64.mul (F64.of_decimal 1999 (-2)) (F64.of_Z 100)
  = S754_finite false 8791694975696895 (-42)
  /\ F64.trunc (S754_finite false 8791694975696895 (-42)) = Some 1998.
Proof. split; vm_compute; reflexivity. Qed.

Example float_12_5_times_100 :
  CreateProduct.amount_to_cents (PFloat (F64.of_decimal 125 (-1))) = Ok 1250
  /\ CreateProduct.amount_to_cents (PStr "12.5") = Ok 1250
  /\ CreateProduct.amount_to_cents (PInt 12) = Ok 1200.
Proof. repeat split; vm_compute; reflexivity. Qed.

Example trunc_toward_zero : F64.trunc (F64.of_decimal (-25) (-1)) = Some (-2).
Proof. vm_compute. reflexivity. Qed.

Example to_float_accepts :
  Str.to_float "19.99" = Some (F64.of_decimal 1999 (-2))
  /\ Str.to_float "  -1_0.5e1 " = Some (F64.of_Z (-105))
  /\ Str.to_float ".5" = Some (F64.of_decimal 5 (-1))
  /\ Str.to_float "1." = Some (F64.of_Z 1)
  /\ Str.to_float "-Inf" = Some (S754_infinity true)
  /\ Str.to_float "NaN" = Some S754_nan
  /\ Str.to_float "1e400" = Some (S754_infinity false).
Proof. repeat split; vm_compute; reflexivity. Qed.

Example to_float_rejects :
  Str.to_float "abc" = None
  /\ Str.to_float "" = None
  /\ Str.to_float "." = None
  /\ Str.to_float "1e" = None
  /\ Str.to_float "1__0" = None
  /\ Str.to_float "1 2" = None.
Proof. repeat split; reflexivity. Qed.

Example truth_values :
  truthy PNone = false /\ truthy (PInt 0) = false
  /\ truthy (PFloat (S754_zero true)) = false /\ truthy (PStr "") = false
  /\ truthy (PStr "0") = true /\ truthy (PFloat S754_nan) = true.
Proof. repeat split; reflexivity. Qed.

(** Scenario B of the specification: name "Widget", amount 12.5, one-time,
    in usd. *)
Example scenario_B :
  calls (snd (CreateProduct.click (Demo.filled "Widget" (PFloat (F64.of_decimal 125 (-1))))
                                  (fresh Demo.shop Demo.key)))
  = [ Product_create {| pd_name := "Widget"; pd_description := None;
                        pd_images := None; pd_metadata := None |};
      Price_create {| prc_product := "prod_1"; prc_unit_amount := 1250;
                      prc_currency := "usd"; prc_nickname := None;
                      prc_recurring := None |};
      Product_list 5;
      Price_list "prod_1" 1 ].
Proof. vm_compute. reflexivity. Qed.

(** Scenario D of the specification: with one positive click count, the
    session has the mode of the clicked card's price. *)
Example scenario_D :
  exists m s1,
    Home.import_module (fresh Demo.store Demo.key) = (Ok m, s1)
    /\ map (fun i => option_map (fun r => (Home.price_id r, mode (Home.checkout_params r)))
                                (nth_error (Home.products_df m) i))
           [0%nat; 1%nat]
       = [Some ("price_basic", "payment"); Some ("price_pro", "subscription")]
    /\ skipn (List.length (calls s1))
             (calls (snd (Home.handle_buy_button m [1%nat] [0; 1; 0] s1)))
       = [ Session_create
             {| payment_method_types := ["card"];
                line_items := [("price_pro", 1)];
                mode := "subscription";
                success_url := "http://127.0.0.1:2245/?success=true";
                cancel_url := "http://127.0.0.1:2245/?canceled=true" |} ].
Proof.
  eexists _, _. split; [vm_compute; reflexivity|].
  split; vm_compute; reflexivity.
Qed.

(** * Properties *)

(** ** Runs of the monad *)

Section Runs.

Context {W : Type} `{Stripe W}.

Lemma with_calls_nil (s : state W) : with_calls s (world s) [] = s.
Proof.
  destruct s; unfold with_calls; simpl. now rewrite app_nil_r.
Qed.

Lemma with_calls_twice (s : state W) w l w' l' :
  with_calls (with_calls s w l) w' l' = with_calls s w' (l ++ l').
Proof.
  unfold with_calls; simpl. now rewrite app_assoc.
Qed.

Lemma after_calls_refl P (s : state W) : after_calls P s s.
Proof.
  exists (world s), []. split; [symmetry; apply with_calls_nil | constructor].
Qed.

Lemma after_calls_trans P (s1 s2 s3 : state W) :
  after_calls P s1 s2 -> after_calls P s2 s3 -> after_calls P s1 s3.
Proof.
  intros (w & l & -> & Hl) (w' & l' & -> & Hl').
  exists w', (l ++ l')%list. split.
  - apply with_calls_twice.
  - apply Forall_app; now split.
Qed.

Lemma request_run {A} (c : call) (op : option string -> W -> result A * W) s :
  request c op s
  = (fst (op (api_key s) (world s)),
     with_calls s (snd (op (api_key s) (world s))) [c]).
Proof.
  unfold request, with_calls. now destruct (op (api_key s) (world s)).
Qed.

Lemma request_after {A} (P : call -> Prop) (c : call)
      (op : option string -> W -> result A * W) s :
  P c -> after_calls P s (snd (request c op s)).
Proof.
  intros Hc. rewrite request_run; simpl.
  eexists _, [c]; split; [reflexivity | now constructor].
Qed.

Lemma for_each_after {A B} (P : call -> Prop) (f : A -> M W B) :
  (forall a s, after_calls P s (snd (f a s))) ->
  forall l s, after_calls P s (snd (for_each f l s)).
Proof.
  intros Hf l. induction l as [|a l IH]; intros s; simpl.
  - apply after_calls_refl.
  - unfold bind. specialize (Hf a s).
    destruct (f a s) as [[b|e] s1]; simpl in *; [|exact Hf].
    specialize (IH s1).
    destruct (for_each f l s1) as [[bs|e] s2]; simpl in *;
      eapply after_calls_trans; eauto.
Qed.

End Runs.

(** ** The creation form *)

Section CreationForm.

Context {W : Type} `{Stripe W}.

Import CreateProduct.

Lemma recent_card_step (s : state W) (product : product) :
  after_calls is_read s
    (snd ((prices <- stripe_Price_list (prod_id product) 1 ;;
           ret (recent_card product (price_info prices)))%py s)).
Proof.
  unfold bind, stripe_Price_list.
  pose proof (request_after is_read
                (Price_list (prod_id product) 1)
                (fun k => do_Price_list k (prod_id product) 1) s I) as Hr.
  destruct (request _ _ s) as [[prices|e] s1]; simpl in *; exact Hr.
Qed.

(** [fetch_recent_products] always returns a component, and only reads. *)
Lemma fetch_recent_products_ok (s : state W) :
  exists recent s',
    fetch_recent_products s = (Ok recent, s') /\ after_calls is_read s s'.
Proof.
  unfold fetch_recent_products, try_except, bind, stripe_Product_list.
  pose proof (request_after is_read (Product_list 5)
                (fun k => do_Product_list k 5) s I) as Hr.
  destruct (request _ _ s) as [[products|e] s1]; simpl in *.
  - destruct products as [|p ps].
    + eexists _, _; split; [reflexivity | exact Hr].
    + pose proof (for_each_after is_read
                    (fun product =>
                       (prices <- stripe_Price_list (prod_id product) 1 ;;
                        ret (recent_card product (price_info prices)))%py)
                    (fun a s => recent_card_step s a) (p :: ps) s1) as Hl.
      unfold bind in Hl |- *.
      destruct (for_each _ (p :: ps) s1) as [[cards|e] s2]; simpl in *;
        (eexists _, _; split;
         [reflexivity | eapply after_calls_trans; eauto]).
  - eexists _, _; split; [reflexivity | exact Hr].
Qed.

Section Submission.

Variables (n : Z) (name description image : option string)
          (price_type interval : string) (amount : pyval) (currency : string)
          (nickname meta_key meta_value : option string).

Let submit : M W outputs :=
  create_product n name description image price_type interval amount currency
                 nickname meta_key meta_value.

Let product_data_ : product_data :=
  make_product_data name description image meta_key meta_value.

Lemma create_product_not_clicked s :
  n = 0 -> submit s = (Raise PreventUpdate, s).
Proof. intros ->. reflexivity. Qed.

Lemma create_product_rejected s :
  n <> 0 ->
  truthy (of_field name) = false \/ truthy amount = false ->
  submit s = (Ok (only_message validation_error), s).
Proof.
  intros Hn Hv. unfold submit, create_product.
  apply Z.eqb_neq in Hn. rewrite Hn.
  destruct Hv as [-> | ->]; simpl; [|rewrite orb_true_r]; reflexivity.
Qed.

Lemma create_product_bad_amount s e :
  n <> 0 -> truthy (of_field name) = true -> truthy amount = true ->
  amount_to_cents amount = Raise e ->
  submit s = (Ok (only_message (error_of e)), s).
Proof.
  intros Hn Hname Hamount He. unfold submit, create_product.
  apply Z.eqb_neq in Hn. rewrite Hn, Hname, Hamount; simpl.
  unfold try_except, bind, lift. rewrite He.
  destruct e; reflexivity.
Qed.

(** What a submission that passes validation does, by the answers of the
    provider. *)
Lemma create_product_run s cents :
  n <> 0 -> truthy (of_field name) = true -> truthy amount = true ->
  amount_to_cents amount = Ok cents ->
  match do_Product_create (api_key s) product_data_ (world s) with
  | (Raise e, w) =>
      submit s = (Ok (only_message (error_of e)),
                  with_calls s w [Product_create product_data_])
  | (Ok product, w) =>
      let d := make_price_data product cents currency nickname price_type interval in
      match do_Price_create (api_key s) d w with
      | (Raise e, w') =>
          submit s = (Ok (only_message (error_of e)),
                      with_calls s w' [Product_create product_data_; Price_create d])
      | (Ok price, w') =>
          exists recent s',
            fetch_recent_products
              (with_calls s w' [Product_create product_data_; Price_create d])
            = (Ok recent, s')
            /\ submit s
               = (Ok (cleared (success_msg product price amount currency
                                           price_type interval) recent), s')
      end
  end.
Proof.
  intros Hn Hname Hamount Hc. unfold submit, create_product.
  apply Z.eqb_neq in Hn. rewrite Hn, Hname, Hamount; simpl.
  unfold try_except, bind, lift. rewrite Hc.
  unfold stripe_Product_create. rewrite request_run.
  fold product_data_.
  destruct (do_Product_create (api_key s) product_data_ (world s))
    as [[product|e] w]; simpl.
  - unfold stripe_Price_create. rewrite request_run; simpl.
    destruct (do_Price_create (api_key s) _ w) as [[price|e] w']; simpl.
    + rewrite with_calls_twice; simpl.
      destruct (fetch_recent_products_ok
                  (with_calls s w' [Product_create product_data_;
                                    Price_create (make_price_data product cents currency
                                                    nickname price_type interval)]))
        as (recent & s' & Hf & _).
      exists recent, s'. split; [exact Hf|]. now rewrite Hf.
    + rewrite with_calls_twice; simpl. destruct e; reflexivity.
  - destruct e; reflexivity.
Qed.

End Submission.

End CreationForm.


Lemma skipn_own_length {A} (l l' : list A) :
  skipn (List.length l) (l ++ l') = l'.
Proof. induction l; simpl; auto. Qed.

Section CreationClaims.

Context {W : Type} `{Stripe W}.

Import CreateProduct.


(** C5: in a submission of the form, [Price.create] is called only after
    [Product.create] has returned a product, in that same submission, and
    with that product's identifier; the calls that follow only read. *)
Theorem price_created_only_after_product
        (n : Z) (name description image : option string)
        (price_type interval : string) (amount : pyval) (currency : string)
        (nickname meta_key meta_value : option string)
        (s s' : state W) (r : result outputs) (d : price_data) :
  create_product n name description image price_type interval amount currency
                 nickname meta_key meta_value s = (r, s') ->
  In (Price_create d) (skipn (List.length (calls s)) (calls s')) ->
  exists pd product w rest,
    do_Product_create (api_key s) pd (world s) = (Ok product, w)
    /\ prc_product d = prod_id product
    /\ calls s' = (calls s ++ Product_create pd :: Price_create d :: rest)%list
    /\ Forall is_read rest.
Proof.
  intros Hrun Hin.
  assert (Hquiet : s' = s -> False).
  { intros ->. rewrite <- (app_nil_r (calls s)) in Hin at 2.
    rewrite skipn_own_length in Hin. exact Hin. }
  destruct (Z.eq_dec n 0) as [Hn|Hn].
  { rewrite create_product_not_clicked in Hrun by exact Hn.
    exfalso. apply Hquiet. congruence. }
  destruct (truthy (of_field name)) eqn:Hname.
  2:{ rewrite create_product_rejected in Hrun by auto.
      exfalso. apply Hquiet. congruence. }
  destruct (truthy amount) eqn:Hamount.
  2:{ rewrite create_product_rejected in Hrun by auto.
      exfalso. apply Hquiet. congruence. }
  destruct (amount_to_cents amount) as [cents|e] eqn:Hc.
  2:{ rewrite (create_product_bad_amount _ _ _ _ _ _ _ _ _ _ _ s e) in Hrun by auto.
      exfalso. apply Hquiet. congruence. }
  pose proof (create_product_run n name description image price_type interval
                amount currency nickname meta_key meta_value s cents
                Hn Hname Hamount Hc) as Hspec.
  destruct (do_Product_create (api_key s) _ (world s)) as [[product|e] w] eqn:Hp.
  - cbv zeta in Hspec.
    destruct (do_Price_create (api_key s) _ w) as [[price|e] w'] eqn:Hq.
    + destruct Hspec as (recent & s1 & Hf & Hsub).
      rewrite Hsub in Hrun. injection Hrun as _ <-.
      destruct (fetch_recent_products_ok
                  (with_calls s w'
                     [Product_create
                        (make_product_data name description image meta_key meta_value);
                      Price_create
                        (make_price_data product cents currency nickname
                                         price_type interval)]))
        as (recent' & s1' & Hf' & (w2 & l & Hs1 & Hl)).
      rewrite Hf in Hf'. injection Hf' as _ <-.
      subst s1. simpl in Hin |- *.
      rewrite <- app_assoc in Hin |- *. simpl in Hin |- *.
      rewrite skipn_own_length in Hin.
      destruct Hin as [Hin|[Hin|Hin]]; [discriminate| |].
      * injection Hin as <-.
        eexists _, product, w, l. repeat split; auto.
      * exfalso. rewrite Forall_forall in Hl. exact (Hl _ Hin).
    + rewrite Hspec in Hrun. injection Hrun as _ <-. simpl in Hin |- *.
      rewrite skipn_own_length in Hin.
      destruct Hin as [Hin|[Hin|[]]]; [discriminate|].
      injection Hin as <-.
      eexists _, product, w, []. repeat split; auto.
  - rewrite Hspec in Hrun. injection Hrun as _ <-. simpl in Hin.
    rewrite skipn_own_length in Hin.
    destruct Hin as [Hin|[]]. discriminate.
Qed.

(** C9: an amount of zero (the integer 0 or a float zero) takes the same
    path as a missing amount: the validation error, and no provider call. *)
Theorem zero_amount_is_rejected_as_missing
        (n : Z) (name description image : option string)
        (price_type interval : string) (amount : pyval) (currency : string)
        (nickname meta_key meta_value : option string) (s : state W) :
  n <> 0 ->
  amount = PInt 0 \/ (exists sign, amount = PFloat (S754_zero sign)) ->
  create_product n name description image price_type interval amount currency
                 nickname meta_key meta_value s
  = (Ok (only_message validation_error), s)
  /\ create_product n name description image price_type interval amount currency
                    nickname meta_key meta_value s
     = create_product n name description image price_type interval PNone
                      currency nickname meta_key meta_value s.
Proof.
  intros Hn Hzero.
  assert (Hfalse : truthy amount = false)
    by (destruct Hzero as [->|[sign ->]]; reflexivity).
  rewrite !create_product_rejected; auto.
Qed.

Lemma load_recent_products_clicked (k : Z) (s : state W) :
  k <> 0 -> load_recent_products k s = (Raise PreventUpdate, s).
Proof.
  intros Hk. unfold load_recent_products.
  apply Z.eqb_neq in Hk. now rewrite Hk.
Qed.

(** A click whose [create_product] run returns [o] and ends in [s']. *)
Lemma click_run (p : page) (s s' : state W) (o : outputs) :
  0 <= n_clicks p ->
  create_product (n_clicks p + 1)
                 (product_name (fields p)) (product_description (fields p))
                 (product_image (fields p)) (price_type (fields p))
                 (recurring_interval (fields p)) (price_amount (fields p))
                 (currency (fields p)) (price_nickname (fields p))
                 (metadata_key (fields p)) (metadata_value (fields p)) s
  = (Ok o, s') ->
  click p s
  = (Ok (apply_outputs o {| create_message := create_message p;
                            recent_products := recent_products p;
                            fields := fields p;
                            n_clicks := n_clicks p + 1 |}), s').
Proof.
  intros Hn Hrun. unfold click, dispatch, run_create_product, try_except, bind.
  simpl. rewrite Hrun. unfold ret.
  rewrite load_recent_products_clicked by lia. reflexivity.
Qed.

(** C10: a submission that fails (validation, the conversion of the
    amount, or an exception of the provider at either create step, of the
    [stripe] package or not) leaves every form field and the
    recently-created list as they were; only the message changes. *)
Theorem failed_submission_keeps_the_form (p : page) (s : state W) :
  0 <= n_clicks p ->
  submission_fails (fields p) s ->
  exists p' s' msg,
    click p s = (Ok p', s')
    /\ fields p' = fields p
    /\ recent_products p' = recent_products p
    /\ create_message p' = Some msg.
Proof.
  intros Hn Hfail.
  assert (Hn1 : n_clicks p + 1 <> 0) by lia.
  assert (Herr : exists msg s',
             create_product (n_clicks p + 1)
               (product_name (fields p)) (product_description (fields p))
               (product_image (fields p)) (price_type (fields p))
               (recurring_interval (fields p)) (price_amount (fields p))
               (currency (fields p)) (price_nickname (fields p))
               (metadata_key (fields p)) (metadata_value (fields p)) s
             = (Ok (only_message msg), s')).
  { destruct (truthy (of_field (product_name (fields p)))) eqn:Hname.
    2:{ eexists _, _. apply create_product_rejected; auto. }
    destruct (truthy (price_amount (fields p))) eqn:Hamount.
    2:{ eexists _, _. apply create_product_rejected; auto. }
    destruct Hfail as [Hf|[Hf|[(e & He)|[(cents & e & w & Hc & Hp)
                                        |(cents & product & w & e & w' & Hc & Hp & Hq)]]]];
      try congruence.
    - eexists _, _. apply create_product_bad_amount; eauto.
    - pose proof (create_product_run (n_clicks p + 1)
                    (product_name (fields p)) (product_description (fields p))
                    (product_image (fields p)) (price_type (fields p))
                    (recurring_interval (fields p)) (price_amount (fields p))
                    (currency (fields p)) (price_nickname (fields p))
                    (metadata_key (fields p)) (metadata_value (fields p)) s cents
                    Hn1 Hname Hamount Hc) as Hspec.
      rewrite Hp in Hspec. eauto.
    - pose proof (create_product_run (n_clicks p + 1)
                    (product_name (fields p)) (product_description (fields p))
                    (product_image (fields p)) (price_type (fields p))
                    (recurring_interval (fields p)) (price_amount (fields p))
                    (currency (fields p)) (price_nickname (fields p))
                    (metadata_key (fields p)) (metadata_value (fields p)) s cents
                    Hn1 Hname Hamount Hc) as Hspec.
      rewrite Hp in Hspec. cbv zeta in Hspec. rewrite Hq in Hspec. eauto. }
  destruct Herr as (msg & s' & Hrun).
  eexists _, s', msg. split; [apply (click_run p s s' _ Hn Hrun)|].
  destruct p as [m r f k]; destruct f; simpl. auto.
Qed.

(** C7, as the code has it: when both creates succeed, the seven free-entry
    fields (name, description, image, amount, nickname, metadata key and
    value) become the empty string while price type, interval and currency
    keep their values; the message shown is the confirmation with the
    product id, the product name, the price id and the price line, and the
    price line carries the " per <interval>" piece exactly when the price
    type is recurring. *)
Theorem successful_submission_clears_entries
        (p : page) (s : state W) (cents : Z)
        (product : product) (price : price) (w w' : W) :
  let f := fields p in
  0 <= n_clicks p ->
  truthy (of_field (product_name f)) = true ->
  truthy (price_amount f) = true ->
  amount_to_cents (price_amount f) = Ok cents ->
  do_Product_create (api_key s)
    (make_product_data (product_name f) (product_description f) (product_image f)
                       (metadata_key f) (metadata_value f))
    (world s) = (Ok product, w) ->
  do_Price_create (api_key s)
    (make_price_data product cents (currency f) (price_nickname f)
                     (price_type f) (recurring_interval f))
    w = (Ok price, w') ->
  exists p' s',
    click p s = (Ok p', s')
    /\ fields p'
       = {| product_name := Some ""; product_description := Some "";
            product_image := Some ""; price_type := price_type f;
            recurring_interval := recurring_interval f;
            price_amount := PStr ""; currency := currency f;
            price_nickname := Some ""; metadata_key := Some "";
            metadata_value := Some "" |}
    /\ create_message p'
       = Some (Node "Div" []
                 [ Node "Div" []
                     [ Node "H4" [] [Leaf [Lit "✅ Product Created Successfully!"]];
                       Node "P" [] [Leaf [Lit "Product ID: ";
                                          Fmt (PStr (prod_id product)) ""]];
                       Node "P" [] [Leaf [Lit "Product Name: ";
                                          Fmt (PStr (prod_name product)) ""]];
                       Node "P" [] [Leaf [Lit "Price ID: ";
                                          Fmt (PStr (pr_id price)) ""]];
                       Node "P" []
                         [Leaf (price_line (price_amount f) (currency f)
                                           (price_type f) (recurring_interval f))] ] ])
    /\ (In (Lit " per ")
           (price_line (price_amount f) (currency f) (price_type f)
                       (recurring_interval f))
        <-> price_type f = "recurring").
Proof.
  intros f Hn Hname Hamount Hc Hp Hq. subst f.
  assert (Hn1 : n_clicks p + 1 <> 0) by lia.
  pose proof (create_product_run (n_clicks p + 1)
                    (product_name (fields p)) (product_description (fields p))
                    (product_image (fields p)) (price_type (fields p))
                    (recurring_interval (fields p)) (price_amount (fields p))
                    (currency (fields p)) (price_nickname (fields p))
                    (metadata_key (fields p)) (metadata_value (fields p)) s cents
                Hn1 Hname Hamount Hc) as Hspec.
  rewrite Hp in Hspec. cbv zeta in Hspec. rewrite Hq in Hspec.
  destruct Hspec as (recent & s' & _ & Hrun).
  eexists _, s'. split; [apply (click_run p s s' _ Hn Hrun)|].
  split; [reflexivity|]. split; [reflexivity|].
  unfold price_line.
  destruct (String.eqb_spec (price_type (fields p)) "recurring") as [Heq|Hne].
  - split; auto. intros _. simpl. do 4 right. now left.
  - split; [|congruence]. simpl.
    intros [Hin|[Hin|[Hin|[Hin|[]]]]]; discriminate.
Qed.

End CreationClaims.

(** ** The creation form on the demo shop *)

Section CreationRuns.

Import CreateProduct.

(** C1, on the code: the amount 19.99 (the float nearest to 1999/100, as
    the number input delivers it) reaches [Price.create] as 1998 minor
    units, not 1999, because [int] cuts the product 1998.9999999999998
    down; 19.98 gives 1998 too, so two amounts share one result. *)
Theorem amount_19_99_is_submitted_as_1998 :
  calls (snd (create_product 1 (Some "Widget") None None "one_time" "month"
                             (PFloat (F64.of_decimal 1999 (-2))) "usd"
                             None None None (fresh Demo.shop Demo.key)))
  = [ Product_create {| pd_name := "Widget"; pd_description := None;
                        pd_images := None; pd_metadata := None |};
      Price_create {| prc_product := "prod_1"; prc_unit_amount := 1998;
                      prc_currency := "usd"; prc_nickname := None;
                      prc_recurring := None |};
      Product_list 5;
      Price_list "prod_1" 1 ]
  /\ amount_to_cents (PFloat (F64.of_decimal 1999 (-2))) = Ok 1998
  /\ amount_to_cents (PStr "19.99") = Ok 1998
  /\ amount_to_cents (PFloat (F64.of_decimal 1998 (-2))) = Ok 1998.
Proof. repeat split; vm_compute; reflexivity. Qed.



Lemma price_created_only_after_product_witness :
  let s := fresh Demo.shop Demo.key in
  let run := create_product 1 (Some "Widget") None None "one_time" "month"
                            (PFloat (F64.of_decimal 125 (-1))) "usd"
                            None None None s in
  let d := {| prc_product := "prod_1"; prc_unit_amount := 1250;
              prc_currency := "usd"; prc_nickname := None;
              prc_recurring := None |} in
  In (Price_create d) (skipn (List.length (calls s)) (calls (snd run)))
  /\ exists pd product w rest,
       do_Product_create (api_key s) pd (world s) = (Ok product, w)
       /\ prc_product d = prod_id product
       /\ calls (snd run)
          = (calls s ++ Product_create pd :: Price_create d :: rest)%list
       /\ Forall is_read rest.
Proof.
  cbv zeta.
  assert (Hin : In (Price_create
                      {| prc_product := "prod_1"; prc_unit_amount := 1250;
                         prc_currency := "usd"; prc_nickname := None;
                         prc_recurring := None |})
                   (skipn (List.length (calls (fresh Demo.shop Demo.key)))
                      (calls (snd (create_product 1 (Some "Widget") None None
                                     "one_time" "month"
                                     (PFloat (F64.of_decimal 125 (-1))) "usd"
                                     None None None (fresh Demo.shop Demo.key))))))
    by (vm_compute; right; left; reflexivity).
  split; [exact Hin|].
  exact (price_created_only_after_product
           1 (Some "Widget") None None "one_time" "month"
           (PFloat (F64.of_decimal 125 (-1))) "usd" None None None
           (fresh Demo.shop Demo.key) _ _ _
           (surjective_pairing _) Hin).
Defined.

Lemma zero_amount_witness :
  create_product 1 (Some "Widget") None None "one_time" "month" (PInt 0) "usd"
                 None None None (fresh Demo.shop Demo.key)
  = (Ok (only_message validation_error), fresh Demo.shop Demo.key)
  /\ create_product 1 (Some "Widget") None None "one_time" "month" (PInt 0) "usd"
                    None None None (fresh Demo.shop Demo.key)
     = create_product 1 (Some "Widget") None None "one_time" "month" PNone "usd"
                      None None None (fresh Demo.shop Demo.key).
Proof.
  apply (zero_amount_is_rejected_as_missing
           1 (Some "Widget") None None "one_time" "month" (PInt 0) "usd"
           None None None (fresh Demo.shop Demo.key)).
  - discriminate.
  - left; reflexivity.
Defined.

Lemma failed_submission_witness :
  submission_fails (fields (Demo.filled "Widget" (PStr "abc")))
                   (fresh Demo.shop Demo.key)
  /\ exists p' s' msg,
       click (Demo.filled "Widget" (PStr "abc")) (fresh Demo.shop Demo.key)
       = (Ok p', s')
       /\ fields p' = fields (Demo.filled "Widget" (PStr "abc"))
       /\ recent_products p' = recent_products (Demo.filled "Widget" (PStr "abc"))
       /\ create_message p' = Some msg.
Proof.
  assert (Hfail : submission_fails (fields (Demo.filled "Widget" (PStr "abc")))
                                   (fresh Demo.shop Demo.key)).
  { right; right; left. eexists. vm_compute. reflexivity. }
  split; [exact Hfail|].
  apply (failed_submission_keeps_the_form
           (Demo.filled "Widget" (PStr "abc")) (fresh Demo.shop Demo.key)).
  - simpl. lia.
  - exact Hfail.
Defined.

(** C7, as stated, fails: after a fully successful submission of a yearly
    subscription in euros the price type, the interval and the currency
    still hold "recurring", "year" and "eur". *)
Lemma choices_survive_a_successful_submission :
  exists p' s',
    click Demo.yearly (fresh Demo.shop Demo.key) = (Ok p', s')
    /\ calls s'
       = [ Product_create {| pd_name := "Widget"; pd_description := Some "A widget";
                             pd_images := None; pd_metadata := None |};
           Price_create {| prc_product := "prod_1"; prc_unit_amount := 1250;
                           prc_currency := "eur"; prc_nickname := None;
                           prc_recurring := Some "year" |};
           Product_list 5;
           Price_list "prod_1" 1 ]
    /\ price_type (fields p') = "recurring"
    /\ recurring_interval (fields p') = "year"
    /\ currency (fields p') = "eur"
    /\ ~ all_fields_cleared (fields p').
Proof.
  eexists _, _. split; [vm_compute; reflexivity|].
  repeat split.
  intros (_ & _ & _ & [Ht|Ht] & _); discriminate Ht.
Qed.

Lemma successful_submission_witness :
  exists p' s',
    click Demo.yearly (fresh Demo.shop Demo.key) = (Ok p', s')
    /\ fields p'
       = {| product_name := Some ""; product_description := Some "";
            product_image := Some ""; price_type := "recurring";
            recurring_interval := "year";
            price_amount := PStr ""; currency := "eur";
            price_nickname := Some ""; metadata_key := Some "";
            metadata_value := Some "" |}
    /\ create_message p'
       = Some (Node "Div" []
                 [ Node "Div" []
                     [ Node "H4" [] [Leaf [Lit "✅ Product Created Successfully!"]];
                       Node "P" [] [Leaf [Lit "Product ID: "; Fmt (PStr "prod_1") ""]];
                       Node "P" [] [Leaf [Lit "Product Name: "; Fmt (PStr "Widget") ""]];
                       Node "P" [] [Leaf [Lit "Price ID: "; Fmt (PStr "price_1") ""]];
                       Node "P" []
                         [Leaf (price_line (PFloat (F64.of_decimal 125 (-1))) "eur"
                                           "recurring" "year")] ] ])
    /\ (In (Lit " per ")
           (price_line (PFloat (F64.of_decimal 125 (-1))) "eur" "recurring" "year")
        <-> "recurring" = "recurring").
Proof.
  apply (successful_submission_clears_entries
           Demo.yearly (fresh Demo.shop Demo.key) 1250 Demo.widget
           (Demo.priced {| prc_product := "prod_1"; prc_unit_amount := 1250;
                           prc_currency := "eur"; prc_nickname := None;
                           prc_recurring := Some "year" |})
           Demo.shop Demo.shop).
  - simpl. lia.
  - reflexivity.
  - reflexivity.
  - vm_compute. reflexivity.
  - reflexivity.
  - reflexivity.
Defined.

End CreationRuns.

(** ** The catalog and the process *)

Section Views.

Context {W : Type} `{Stripe W}.

Lemma home_import_total (s : state W) :
  exists m s',
    Home.import_module s = (Ok m, s')
    /\ Home.layout m
       = Home.page_layout (Home.products_df m) (Home.error_message m).
Proof.
  unfold Home.import_module, bind, try_except.
  destruct (Home.fetch_products_data s) as [[df|e] s1]; simpl;
    eexists _, _; split; reflexivity.
Qed.

Lemma analytics_import_total (s : state W) :
  exists m s',
    Analytics.import_module s = (Ok m, s')
    /\ Analytics.layout m
       = Analytics.page_layout (Analytics.revenue_df m)
                               (Analytics.error_message m)
                               (Analytics.total_revenue m)
                               (Analytics.total_transactions m)
                               (Analytics.avg_transaction m)
    /\ (Analytics.total_revenue m, Analytics.total_transactions m,
        Analytics.avg_transaction m)
       = Analytics.metrics (Analytics.revenue_df m).
Proof.
  unfold Analytics.import_module, bind, try_except.
  destruct (Analytics.fetch_revenue_data s) as [[df|e] s1]; simpl.
  - destruct (Analytics.metrics df) as [[total count] avg] eqn:Hm; simpl.
    eexists _, _; repeat split; simpl; auto.
  - eexists _, _; repeat split; reflexivity.
Qed.

(** The first provider call of each page module does not look at the
    credential. *)
Lemma home_import_calls (s : state W) :
  exists rest,
    calls (snd (Home.import_module s))
    = (calls s ++ Product_list 100 :: rest)%list.
Proof.
  unfold Home.import_module, bind, try_except, Home.fetch_products_data, bind.
  unfold stripe_Product_list. rewrite request_run.
  destruct (do_Product_list (api_key s) 100 (world s)) as [[products|e] w]; simpl.
  - pose proof (for_each_after (fun _ => True)
                  (fun product =>
                     (prices <- stripe_Price_list (prod_id product) 10 ;;
                      ret (map (Home.make_row product) prices))%py)) as Hl.
    specialize (Hl (fun a s0 =>
                      ltac:(unfold bind, stripe_Price_list;
                            pose proof (request_after (fun _ => True)
                                          (Price_list (prod_id a) 10)
                                          (fun k => do_Price_list k (prod_id a) 10)
                                          s0 I) as Hr;
                            destruct (request _ _ s0) as [[x|x] s1];
                            exact Hr))
                   products (with_calls s w [Product_list 100])).
    destruct (for_each _ products _) as [[rows|e] s2]; simpl in *;
      destruct Hl as (w2 & l & -> & _); simpl;
      exists l; now rewrite <- app_assoc.
  - exists []. reflexivity.
Qed.

Lemma analytics_import_calls (s : state W) :
  calls (snd (Analytics.import_module s))
  = (calls s
     ++ [PaymentIntent_list 100 (Some (timestamp_days_ago 30 (world s)))])%list.
Proof.
  unfold Analytics.import_module, bind, try_except, Analytics.fetch_revenue_data,
    bind, thirty_days_ago_now.
  unfold stripe_PaymentIntent_list. rewrite request_run.
  destruct (do_PaymentIntent_list (api_key s) 100 _ (world s))
    as [[payments|e] w]; simpl.
  - destruct (Analytics.metrics _) as [[total count] avg]. reflexivity.
  - reflexivity.
Qed.

(** C2, as the code has it: the process start runs each page module once
    and always yields the two layouts; every later view load returns the
    layout built then, the one of the data a module fetched when it was
    imported, and leaves the state as it is, so no provider call is made
    by a view load. *)
Theorem views_show_the_data_fetched_at_startup
        (STRIPE_SECRET_KEY : option string) (s0 : state W) :
  exists a s1,
    App.startup STRIPE_SECRET_KEY s0 = (Ok a, s1)
    /\ (forall (v : App.view) (s : state W),
          App.load_view a v s = (Ok (App.page_layout a v), s))
    /\ App.page_layout a App.Catalog
       = Home.page_layout (Home.products_df (App.home a))
                          (Home.error_message (App.home a))
    /\ App.page_layout a App.AnalyticsView
       = Analytics.page_layout (Analytics.revenue_df (App.analytics a))
                               (Analytics.error_message (App.analytics a))
                               (Analytics.total_revenue (App.analytics a))
                               (Analytics.total_transactions (App.analytics a))
                               (Analytics.avg_transaction (App.analytics a))
    /\ exists sa sa' sh sh',
         Analytics.import_module sa = (Ok (App.analytics a), sa')
         /\ Home.import_module sh = (Ok (App.home a), sh').
Proof.
  unfold App.startup, bind. simpl.
  destruct (analytics_import_total (snd (set_api_key STRIPE_SECRET_KEY s0)))
    as (ma & sa & Ha & Hla & _).
  simpl in Ha. pose proof Ha as Ha'. rewrite Ha'. clear Ha'.
  destruct (home_import_total sa) as (mh & sh & Hh & Hlh).
  pose proof Hh as Hh'. rewrite Hh'. clear Hh'. simpl.
  eexists _, _. split; [reflexivity|]. simpl.
  split; [reflexivity|]. split; [exact Hlh|]. split; [exact Hla|].
  eexists _, sa, sa, sh. split; [exact Ha | exact Hh].
Qed.

(** What the buy callback asks for: a session for the first card, in card
    order, whose click count is positive. *)
Lemma buy_button_checks_out_first_clicked
      (m : Home.module_state) (t : nat) (triggered : list nat)
      (n_clicks : list Z) (i : nat) (r : Home.row) (s : state W) :
  Home.first_clicked 0 n_clicks = Some i ->
  nth_error (Home.products_df m) i = Some r ->
  calls (snd (Home.handle_buy_button m (t :: triggered) n_clicks s))
  = (calls s ++ [Session_create (Home.checkout_params r)])%list.
Proof.
  intros Hi Hr. unfold Home.handle_buy_button.
  assert (Hall : forallb (fun click => click =? 0) n_clicks = false).
  { clear Hr. revert Hi. generalize 0%nat.
    induction n_clicks as [|c l IH]; simpl; [discriminate|].
    intros k. destruct (0 <? c) eqn:Hc.
    - intros _. apply Z.ltb_lt in Hc.
      destruct (c =? 0) eqn:Hz; [apply Z.eqb_eq in Hz; lia | reflexivity].
    - intros Hk. rewrite (IH _ Hk). apply andb_false_r. }
  rewrite Hall, Hi.
  unfold try_except, bind, Home.iloc. rewrite Hr. unfold ret.
  unfold stripe_Session_create. rewrite request_run.
  destruct (do_Session_create (api_key s) _ (world s)) as [[session|e] w];
    reflexivity.
Qed.

End Views.

(** C2, as stated, fails: the process starts while the provider lists
    nothing; later the provider lists three plans and three payments, and a
    view load still shows the empty catalog and the zero metrics of the
    start, not what a fetch at that moment gives, and calls nothing. *)
Lemma view_load_shows_stale_data :
  exists a s1,
    App.startup Demo.key (fresh Demo.closed Demo.key) = (Ok a, s1)
    /\ let later := {| world := Demo.store; api_key := api_key s1;
                       calls := calls s1; tabs := tabs s1; stdout := stdout s1 |} in
       exists mh ma sh sa,
         Home.import_module later = (Ok mh, sh)
         /\ Analytics.import_module later = (Ok ma, sa)
         /\ App.load_view a App.Catalog later
            = (Ok (Home.page_layout [] None), later)
         /\ Home.page_layout [] None <> Home.layout mh
         /\ App.load_view a App.AnalyticsView later
            = (Ok (Analytics.page_layout [] None (PInt 0) 0 (PInt 0)), later)
         /\ Analytics.page_layout [] None (PInt 0) 0 (PInt 0)
            <> Analytics.layout ma.
Proof.
  eexists _, _. split; [vm_compute; reflexivity|].
  cbv zeta. eexists _, _, _, _.
  split; [vm_compute; reflexivity|].
  split; [vm_compute; reflexivity|].
  split; [vm_compute; reflexivity|].
  split; [vm_compute; discriminate|].
  split; [vm_compute; reflexivity|].
  vm_compute; discriminate.
Qed.

(** C4, on the code: card 0 was bought earlier, so its button counts one
    click; now the button of card 2 is clicked. The session is opened for
    the price of card 0, not for the price of card 2. *)
Theorem second_buy_checks_out_the_first_card :
  exists m s1,
    Home.import_module (fresh Demo.store Demo.key) = (Ok m, s1)
    /\ map Home.price_id (Home.products_df m)
       = ["price_basic"; "price_pro"; "price_team"]
    /\ skipn (List.length (calls s1))
             (calls (snd (Home.handle_buy_button m [2%nat] [1; 0; 1] s1)))
       = [ Session_create
             {| payment_method_types := ["card"];
                line_items := [("price_basic", 1)];
                mode := "payment";
                success_url := "http://127.0.0.1:2245/?success=true";
                cancel_url := "http://127.0.0.1:2245/?canceled=true" |} ].
Proof.
  eexists _, _. split; [vm_compute; reflexivity|].
  split; vm_compute; reflexivity.
Qed.

(** ** Analytics: the daily groups *)

Section DailyGroups.

Import Analytics.

Lemma insert_key_In (d x : Z) (keys : list Z) :
  In x (insert_key d keys) <-> x = d \/ In x keys.
Proof.
  induction keys as [|k keys IH]; simpl.
  - intuition.
  - destruct (d <? k); [simpl; intuition|].
    destruct (d =? k) eqn:Hk.
    + apply Z.eqb_eq in Hk. subst. simpl. intuition.
    + simpl. rewrite IH. intuition.
Qed.

Lemma insert_key_sorted (d : Z) (keys : list Z) :
  StronglySorted Z.lt keys -> StronglySorted Z.lt (insert_key d keys).
Proof.
  induction keys as [|k keys IH]; simpl; intros Hs.
  - repeat constructor.
  - inversion Hs as [|? ? Hs' Hall]; subst.
    destruct (d <? k) eqn:Hlt.
    + apply Z.ltb_lt in Hlt. constructor; [exact Hs|].
      constructor; [exact Hlt|].
      rewrite Forall_forall in *. intros x Hx. specialize (Hall x Hx). lia.
    + destruct (d =? k) eqn:Heq; [exact Hs|].
      apply Z.ltb_ge in Hlt. apply Z.eqb_neq in Heq.
      constructor; [now apply IH|].
      rewrite Forall_forall in *. intros x Hx.
      apply insert_key_In in Hx. destruct Hx as [->|Hx]; [lia | now apply Hall].
Qed.

Lemma group_keys_sorted (df : list row) : StronglySorted Z.lt (group_keys df).
Proof.
  unfold group_keys. induction df as [|r df IH]; simpl.
  - constructor.
  - now apply insert_key_sorted.
Qed.

Lemma group_keys_In (df : list row) (r : row) :
  In r df -> In (date r) (group_keys df).
Proof.
  unfold group_keys. induction df as [|r' df IH]; simpl; [tauto|].
  intros [->|Hin]; apply insert_key_In; auto.
Qed.

Lemma sorted_NoDup (keys : list Z) : StronglySorted Z.lt keys -> NoDup keys.
Proof.
  induction 1 as [|k keys Hs IH Hall]; constructor; auto.
  intros Hin. rewrite Forall_forall in Hall. specialize (Hall k Hin). lia.
Qed.

(** Two filters that never keep the same element share the list between
    them. *)
Lemma filter_disjoint_union {A} (p q : A -> bool) (l : list A) :
  (forall a, p a = true -> q a = false) ->
  Permutation (filter p l ++ filter q l) (filter (fun a => p a || q a) l).
Proof.
  intros Hpq. induction l as [|a l IH]; simpl; [constructor|].
  destruct (p a) eqn:Hp; simpl.
  - rewrite (Hpq a Hp). now constructor.
  - destruct (q a); simpl; [|exact IH].
    apply Permutation_sym.
    eapply Permutation_trans; [|apply Permutation_middle].
    constructor. now apply Permutation_sym.
Qed.

Lemma groups_of_keys (keys : list Z) (df : list row) :
  NoDup keys ->
  Permutation (flat_map (fun k => filter (fun r => date r =? k) df) keys)
              (filter (fun r => existsb (Z.eqb (date r)) keys) df).
Proof.
  induction 1 as [|k keys Hk Hnd IH]; simpl.
  - induction df; simpl; auto.
  - eapply Permutation_trans; [apply Permutation_app_head, IH|].
    apply filter_disjoint_union.
    intros r Hr. apply Z.eqb_eq in Hr.
    destruct (existsb (Z.eqb (date r)) keys) eqn:He; [|reflexivity].
    apply existsb_exists in He. destruct He as (x & Hx & Hxe).
    apply Z.eqb_eq in Hxe. congruence.
Qed.

(** The groups of [groupby('date')] hold every row once. *)
Lemma groupby_date_partition (df : list row) :
  Permutation (List.concat (map snd (groupby_date df))) df.
Proof.
  unfold groupby_date. rewrite map_map; simpl.
  rewrite <- flat_map_concat_map.
  eapply Permutation_trans.
  - apply groups_of_keys, sorted_NoDup, group_keys_sorted.
  - assert (Hall : forall r, In r df ->
                       existsb (Z.eqb (date r)) (group_keys df) = true).
    { intros r Hr. apply existsb_exists. exists (date r).
      split; [now apply group_keys_In | apply Z.eqb_refl]. }
    revert Hall. generalize (group_keys df). intros keys Hall.
    induction df as [|r df IH]; simpl; [constructor|].
    rewrite (Hall r (or_introl eq_refl)). constructor.
    apply IH. intros r' Hr'. apply Hall. now right.
Qed.

Lemma sumZ_cons (a : Z) (l : list Z) : sumZ (a :: l) = a + sumZ l.
Proof. reflexivity. Qed.

Lemma sumZ_app (l l' : list Z) : sumZ (l ++ l') = sumZ l + sumZ l'.
Proof. unfold sumZ. induction l; simpl; lia. Qed.

Lemma sumZ_permutation (l l' : list Z) : Permutation l l' -> sumZ l = sumZ l'.
Proof. unfold sumZ. induction 1; simpl; lia. Qed.

Lemma sumZ_concat {A} (weight : A -> Z) (groups : list (list A)) :
  sumZ (map (fun g => sumZ (map weight g)) groups)
  = sumZ (map weight (List.concat groups)).
Proof.
  induction groups as [|g groups IH]; [reflexivity|].
  cbn [map List.concat]. now rewrite sumZ_cons, map_app, sumZ_app, IH.
Qed.

Lemma sumZ_ones {A} (l : list A) :
  sumZ (map (fun _ => 1) l) = Z.of_nat (List.length l).
Proof.
  induction l as [|a l IH]; [reflexivity|].
  cbn [map List.length]. rewrite sumZ_cons, IH. lia.
Qed.



End DailyGroups.

(** ** The credential *)

Section Credential.

Context {W : Type} `{Stripe W}.

Lemma print_all_run (lines : list text) (s : state W) :
  ApiBasics.print_all lines s
  = (Ok tt, {| world := world s; api_key := api_key s; calls := calls s;
               tabs := tabs s; stdout := (stdout s ++ lines)%list |}).
Proof.
  revert s. induction lines as [|l lines IH]; intros s; simpl.
  - unfold ret. rewrite app_nil_r. now destruct s.
  - unfold bind, print. rewrite IH. simpl. now rewrite <- app_assoc.
Qed.

Lemma startup_calls (STRIPE_SECRET_KEY : option string) (s : state W) :
  exists rest,
    calls (snd (App.startup STRIPE_SECRET_KEY s))
    = (calls s
       ++ PaymentIntent_list 100 (Some (timestamp_days_ago 30 (world s)))
          :: Product_list 100 :: rest)%list.
Proof.
  unfold App.startup, bind. simpl.
  pose proof (analytics_import_calls (snd (set_api_key STRIPE_SECRET_KEY s))) as Ha.
  destruct (analytics_import_total (snd (set_api_key STRIPE_SECRET_KEY s)))
    as (ma & sa & Hma & _).
  simpl in Ha, Hma. rewrite Hma in Ha |- *. simpl in Ha.
  destruct (home_import_calls sa) as (rest & Hh).
  destruct (home_import_total sa) as (mh & sh & Hmh & _).
  rewrite Hmh in Hh |- *. simpl in Hh |- *.
  exists rest. rewrite Hh, Ha, <- app_assoc. reflexivity.
Qed.

(** C8, as the code has it: the connectivity check stops on a credential
    that is absent, empty or without the [sk_test_] or [sk_live_] prefix:
    it prints its own message and exits with status 1, having made no
    provider call and set no key. The dashboard makes no such check: with
    the same credential its start still calls the provider, for the
    payments and for the products. *)
Theorem bad_credential_stops_the_check_only
        (STRIPE_SECRET_KEY : option string) (s : state W) :
  ApiBasics.accepted STRIPE_SECRET_KEY = false ->
  (exists out,
     ApiBasics.main STRIPE_SECRET_KEY s
     = (Ok 1, {| world := world s; api_key := api_key s; calls := calls s;
                 tabs := tabs s; stdout := (stdout s ++ out)%list |})
     /\ (In [Lit "❌ ERROR: No STRIPE_SECRET_KEY found in environment variables!"] out
         \/ In [Lit "❌ Invalid API key format"] out))
  /\ (exists new since,
        calls (snd (App.startup STRIPE_SECRET_KEY s)) = (calls s ++ new)%list
        /\ In (PaymentIntent_list 100 (Some since)) new
        /\ In (Product_list 100) new).
Proof.
  intros Hbad. split.
  2:{ destruct (startup_calls STRIPE_SECRET_KEY s) as (rest & Hc).
      eexists _, _. split; [exact Hc|]. simpl. auto. }
  unfold ApiBasics.main, ApiBasics.accepted in *. unfold bind.
  rewrite print_all_run.
  destruct (CreateProduct.present STRIPE_SECRET_KEY) as [key|].
  - apply orb_false_iff in Hbad. destruct Hbad as [Ht Hl].
    rewrite Ht, Hl. unfold print, ret. simpl.
    eexists. rewrite <- app_assoc. split; [reflexivity|].
    right. simpl. auto.
  - rewrite print_all_run. unfold ret. simpl.
    eexists. rewrite <- app_assoc. split; [reflexivity|].
    left. simpl. auto.
Qed.

End Credential.

(** C8, as stated, fails: started without a credential, or with one of no
    known form, the dashboard calls the provider all the same; what the
    missing credential brings about is shown by the page in its banner for
    a failed fetch. *)
Lemma dashboard_calls_the_provider_without_credential :
  ApiBasics.accepted None = false
  /\ ApiBasics.accepted (Some "not-a-key") = false
  /\ (exists a s1,
        App.startup None (fresh Demo.shop None) = (Ok a, s1)
        /\ In (PaymentIntent_list 100 (Some 1700000000)) (calls s1)
        /\ In (Product_list 100) (calls s1)
        /\ stdout s1 = []
        /\ Home.error_message (App.home a)
           = Some [Lit "Error fetching Stripe products: ";
                   Lit "No API key provided."])
  /\ (exists a s1,
        App.startup (Some "not-a-key") (fresh Demo.shop None) = (Ok a, s1)
        /\ In (PaymentIntent_list 100 (Some 1700000000)) (calls s1)
        /\ In (Product_list 100) (calls s1)
        /\ In (Price_list "prod_1" 10) (calls s1)
        /\ stdout s1 = []
        /\ Home.error_message (App.home a) = None).
Proof.
  split; [reflexivity|]. split; [reflexivity|].
  split; eexists _, _; (split; [vm_compute; reflexivity|]);
    repeat split; simpl; auto.
Qed.

Lemma bad_credential_witness :
  ApiBasics.accepted None = false
  /\ (exists out,
        ApiBasics.main None (fresh Demo.shop None)
        = (Ok 1, {| world := Demo.shop; api_key := None; calls := [];
                    tabs := []; stdout := ([] ++ out)%list |})
        /\ (In [Lit "❌ ERROR: No STRIPE_SECRET_KEY found in environment variables!"] out
            \/ In [Lit "❌ Invalid API key format"] out))
  /\ (exists new since,
        calls (snd (App.startup None (fresh Demo.shop None))) = ([] ++ new)%list
        /\ In (PaymentIntent_list 100 (Some since)) new
        /\ In (Product_list 100) new).
Proof.
  split; [reflexivity|].
  exact (bad_credential_stops_the_check_only None (fresh Demo.shop None) eq_refl).
Defined.

(** * Further properties *)

(** ** The catalog *)

Section CatalogFacts.

Context {W : Type} `{Stripe W}.

Lemma first_clicked_at (n_clicks : list Z) (i k : nat) (c : Z) :
  nth_error n_clicks k = Some c -> 0 < c ->
  (forall j c', (j < k)%nat -> nth_error n_clicks j = Some c' -> c' <= 0) ->
  Home.first_clicked i n_clicks = Some (i + k)%nat.
Proof.
  revert i k. induction n_clicks as [|x l IH]; intros i k Hk Hc Hbefore.
  - destruct k; discriminate.
  - destruct k as [|k]; simpl in *.
    + injection Hk as ->. apply Z.ltb_lt in Hc. rewrite Hc.
      now rewrite Nat.add_0_r.
    + assert (Hx : x <= 0) by (apply (Hbefore 0%nat); [lia | reflexivity]).
      destruct (0 <? x) eqn:Hlt; [apply Z.ltb_lt in Hlt; lia|].
      rewrite (IH (S i) k Hk Hc).
      * f_equal. lia.
      * intros j c' Hj Hn. apply (Hbefore (S j)); [lia | exact Hn].
Qed.

Lemma first_clicked_none (n_clicks : list Z) (i : nat) :
  (forall c, In c n_clicks -> c <= 0) -> Home.first_clicked i n_clicks = None.
Proof.
  revert i. induction n_clicks as [|x l IH]; intros i Hall; simpl; [reflexivity|].
  assert (Hx : x <= 0) by (apply Hall; now left).
  destruct (0 <? x) eqn:Hlt; [apply Z.ltb_lt in Hlt; lia|].
  apply IH. intros c Hc. apply Hall. now right.
Qed.

Lemma first_clicked_not_all_zero (n_clicks : list Z) (i k : nat) :
  Home.first_clicked i n_clicks = Some k ->
  forallb (fun click => click =? 0) n_clicks = false.
Proof.
  revert i. induction n_clicks as [|c l IH]; simpl; [discriminate|].
  intros i. destruct (0 <? c) eqn:Hc.
  - intros _. apply Z.ltb_lt in Hc.
    destruct (c =? 0) eqn:Hz; [apply Z.eqb_eq in Hz; lia | reflexivity].
  - intros Hk. rewrite (IH _ Hk). apply andb_false_r.
Qed.

(** The buy callback, case by case. *)
Lemma handle_buy_button_run (m : Home.module_state) (triggered : list nat)
      (n_clicks : list Z) (s : state W) :
  Home.handle_buy_button m triggered n_clicks s
  = match triggered, Home.first_clicked 0 n_clicks with
    | [], _ | _, None => (Raise PreventUpdate, s)
    | _ :: _, Some i =>
        match nth_error (Home.products_df m) i with
        | None =>
            (Raise PreventUpdate,
             {| world := world s; api_key := api_key s; calls := calls s;
                tabs := tabs s;
                stdout := stdout s
                          ++ [[Lit "Error creating checkout session: ";
                               Lit "single positional indexer is out-of-bounds"]] |})
        | Some r =>
            match do_Session_create (api_key s) (Home.checkout_params r) (world s) with
            | (Ok session, w) =>
                (Ok (sess_url session),
                 {| world := w; api_key := api_key s;
                    calls := calls s ++ [Session_create (Home.checkout_params r)];
                    tabs := tabs s ++ [sess_url session];
                    stdout := stdout s |})
            | (Raise e, w) =>
                (Raise PreventUpdate,
                 {| world := w; api_key := api_key s;
                    calls := calls s ++ [Session_create (Home.checkout_params r)];
                    tabs := tabs s;
                    stdout := stdout s
                              ++ [Lit "Error creating checkout session: " :: str_exn e] |})
            end
        end
    end.
Proof.
  unfold Home.handle_buy_button.
  destruct triggered as [|t triggered]; [now destruct (Home.first_clicked 0 n_clicks)|].
  destruct (Home.first_clicked 0 n_clicks) as [i|] eqn:Hi.
  - rewrite (first_clicked_not_all_zero _ _ _ Hi).
    unfold try_except, bind, Home.iloc.
    destruct (nth_error (Home.products_df m) i) as [r|]; [|reflexivity].
    unfold ret, stripe_Session_create. rewrite request_run.
    destruct (do_Session_create (api_key s) _ (world s)) as [[session|e] w];
      reflexivity.
  - now destruct (forallb (fun click => click =? 0) n_clicks).
Qed.

(** X1: whatever is clicked and whatever the provider answers, the buy
    callback either returns the session's URL, having made one
    session-create call and opened that URL in one new tab, or raises
    [PreventUpdate] with no tab opened; it raises nothing else and makes
    at most one provider call. *)
Theorem buy_button_returns_url_or_prevents_update
        (m : Home.module_state) (triggered : list nat) (n_clicks : list Z)
        (s : state W) :
  let run := Home.handle_buy_button m triggered n_clicks s in
  (exists url p,
      fst run = Ok url
      /\ calls (snd run) = (calls s ++ [Session_create p])%list
      /\ tabs (snd run) = (tabs s ++ [url])%list
      /\ stdout (snd run) = stdout s)
  \/ (fst run = Raise PreventUpdate
      /\ tabs (snd run) = tabs s
      /\ (calls (snd run) = calls s
          \/ exists p, calls (snd run) = (calls s ++ [Session_create p])%list)).
Proof.
  cbv zeta. rewrite handle_buy_button_run.
  destruct triggered as [|t triggered]; [right; simpl; auto|].
  destruct (Home.first_clicked 0 n_clicks) as [i|]; [|right; simpl; auto].
  destruct (nth_error (Home.products_df m) i) as [r|]; [|right; simpl; auto].
  destruct (do_Session_create (api_key s) _ (world s)) as [[session|e] w]; simpl.
  - left. eexists _, _. repeat split; reflexivity.
  - right. repeat split; auto. right. eexists. reflexivity.
Qed.

(** X2: a callback run with nothing triggered, or in which no button has
    a positive click count (all zero, or no button at all), raises
    [PreventUpdate] and changes nothing: no provider call, no tab, no
    output. *)
Theorem buy_without_a_click_does_nothing
        (m : Home.module_state) (triggered : list nat) (n_clicks : list Z)
        (s : state W) :
  triggered = [] \/ (forall c, In c n_clicks -> c <= 0) ->
  Home.handle_buy_button m triggered n_clicks s = (Raise PreventUpdate, s).
Proof.
  intros Hno. rewrite handle_buy_button_run.
  destruct Hno as [-> | Hall]; [reflexivity|].
  rewrite (first_clicked_none _ _ Hall). now destruct triggered.
Qed.

(** X3: when the clicked card is the first one with a positive click
    count (as on the first purchase from a freshly loaded page), the one
    provider call asks for a session with exactly that card's price,
    quantity 1, mode "subscription" if the row is recurring and "payment"
    otherwise, and the two fixed redirect URLs; when the provider returns
    a session, its URL is returned and opened. *)
Theorem first_buy_checks_out_the_clicked_card
        (m : Home.module_state) (t : nat) (triggered : list nat)
        (n_clicks : list Z) (k : nat) (c : Z) (r : Home.row) (s : state W) :
  nth_error n_clicks k = Some c -> 0 < c ->
  (forall j c', (j < k)%nat -> nth_error n_clicks j = Some c' -> c' <= 0) ->
  nth_error (Home.products_df m) k = Some r ->
  let run := Home.handle_buy_button m (t :: triggered) n_clicks s in
  calls (snd run)
  = (calls s
     ++ [Session_create
           {| payment_method_types := ["card"];
              line_items := [(Home.price_id r, 1)];
              mode := if (Home.recurring r =? "Yes")%string
                      then "subscription" else "payment";
              success_url := "http://127.0.0.1:2245/?success=true";
              cancel_url := "http://127.0.0.1:2245/?canceled=true" |}])%list
  /\ (forall session w,
        do_Session_create (api_key s) (Home.checkout_params r) (world s)
        = (Ok session, w) ->
        fst run = Ok (sess_url session)
        /\ tabs (snd run) = (tabs s ++ [sess_url session])%list).
Proof.
  intros Hk Hc Hbefore Hr. cbv zeta. rewrite handle_buy_button_run.
  rewrite (first_clicked_at n_clicks 0 k c Hk Hc Hbefore). simpl. rewrite Hr.
  destruct (do_Session_create (api_key s) _ (world s)) as [[session|e] w] eqn:Hs;
    simpl; (split; [reflexivity|]); intros session' w' [= <- <-]; auto.
Qed.

(** X4: a click resolved to an index beyond the rows of [products_df]
    (an empty catalog after a failed fetch, for instance) makes no
    provider call and opens no tab: the [IndexError] is printed and
    [PreventUpdate] is raised. *)
Theorem buy_beyond_the_catalog_is_swallowed
        (m : Home.module_state) (t : nat) (triggered : list nat)
        (n_clicks : list Z) (k : nat) (c : Z) (s : state W) :
  nth_error n_clicks k = Some c -> 0 < c ->
  (forall j c', (j < k)%nat -> nth_error n_clicks j = Some c' -> c' <= 0) ->
  (List.length (Home.products_df m) <= k)%nat ->
  Home.handle_buy_button m (t :: triggered) n_clicks s
  = (Raise PreventUpdate,
     {| world := world s; api_key := api_key s; calls := calls s;
        tabs := tabs s;
        stdout := stdout s
                  ++ [[Lit "Error creating checkout session: ";
                       Lit "single positional indexer is out-of-bounds"]] |}).
Proof.
  intros Hk Hc Hbefore Hlen. rewrite handle_buy_button_run.
  rewrite (first_clicked_at n_clicks 0 k c Hk Hc Hbefore). simpl.
  apply nth_error_None in Hlen. now rewrite Hlen.
Qed.

(** X5: when the provider refuses the session, with any exception, the
    user sees nothing: no tab is opened and the callback raises
    [PreventUpdate]; the exception's text is printed on the console
    only. *)
Theorem refused_checkout_is_only_printed
        (m : Home.module_state) (t : nat) (triggered : list nat)
        (n_clicks : list Z) (i : nat) (r : Home.row) (e : exn) (w : W)
        (s : state W) :
  Home.first_clicked 0 n_clicks = Some i ->
  nth_error (Home.products_df m) i = Some r ->
  do_Session_create (api_key s) (Home.checkout_params r) (world s) = (Raise e, w) ->
  Home.handle_buy_button m (t :: triggered) n_clicks s
  = (Raise PreventUpdate,
     {| world := w; api_key := api_key s;
        calls := calls s ++ [Session_create (Home.checkout_params r)];
        tabs := tabs s;
        stdout := stdout s
                  ++ [Lit "Error creating checkout session: " :: str_exn e] |}).
Proof.
  intros Hi Hr He. rewrite handle_buy_button_run. now rewrite Hi, Hr, He.
Qed.

(** The rows of one product, as the inner loop gathers them. *)
Lemma price_rows_run (rest : list product) (s s' : state W)
      (rowss : list (list Home.row)) :
  for_each (fun product =>
              (prices <- stripe_Price_list (prod_id product) 10 ;;
               ret (map (Home.make_row product) prices))%py) rest s
  = (Ok rowss, s') ->
  calls s' = (calls s ++ map (fun p => Price_list (prod_id p) 10) rest)%list
  /\ Forall (fun r => exists p, In p rest
                                /\ Home.product_id r = prod_id p
                                /\ Home.product_name r = prod_name p)
            (List.concat rowss).
Proof.
  revert s rowss. induction rest as [|a rest IH]; intros s rowss.
  - intros [= <- <-]. simpl. rewrite app_nil_r. split; constructor.
  - cbn [for_each]. unfold bind at 1. unfold bind at 1. unfold stripe_Price_list.
    rewrite request_run.
    destruct (do_Price_list (api_key s) (prod_id a) 10 (world s))
      as [[prices|e] w]; cbn [fst snd]; [|discriminate].
    unfold ret at 1. unfold bind at 1.
    match goal with
    | |- context [for_each ?f rest ?st] =>
        destruct (for_each f rest st) as [[bs|e] s2] eqn:Hrest
    end; [|discriminate].
    unfold ret. intros [= <- <-]. apply IH in Hrest. destruct Hrest as [Hc Hall].
    split.
    + rewrite Hc. simpl. now rewrite <- app_assoc.
    + simpl. apply Forall_app. split.
      * apply Forall_forall. intros r Hr. apply in_map_iff in Hr.
        destruct Hr as (pr & <- & _). exists a. simpl. auto.
      * eapply Forall_impl; [|exact Hall].
        intros r (p & Hp & Hid & Hname). exists p. simpl. auto.
Qed.

(** X6: a catalog fetch that succeeds has listed the products once, with
    limit 100, and then the prices of each listed product, in order, with
    limit 10, and nothing else; every row it returns carries the
    identifier and the name of one of the listed products. *)
Theorem catalog_fetch_lists_products_then_their_prices
        (s s' : state W) (rows : list Home.row) :
  Home.fetch_products_data s = (Ok rows, s') ->
  exists products w,
    do_Product_list (api_key s) 100 (world s) = (Ok products, w)
    /\ calls s'
       = (calls s ++ Product_list 100
                     :: map (fun p => Price_list (prod_id p) 10) products)%list
    /\ Forall (fun r => exists p, In p products
                                  /\ Home.product_id r = prod_id p
                                  /\ Home.product_name r = prod_name p) rows.
Proof.
  unfold Home.fetch_products_data. unfold bind at 1. unfold stripe_Product_list.
  rewrite request_run.
  destruct (do_Product_list (api_key s) 100 (world s)) as [[products|e] w] eqn:Hp;
    cbn [fst snd]; [|discriminate].
  unfold bind at 1.
  match goal with
  | |- context [for_each ?f products ?st] =>
      destruct (for_each f products st) as [[rowss|e] s2] eqn:Hrows
  end; [|discriminate].
  unfold ret. intros [= <- <-]. apply price_rows_run in Hrows.
  destruct Hrows as [Hc Hall].
  exists products, w. split; [reflexivity|]. split; [|exact Hall].
  rewrite Hc. simpl. now rewrite <- app_assoc.
Qed.

Lemma cards_from_nth (rows : list Home.row) (i k : nat) :
  nth_error (Home.cards_from i rows) k
  = option_map (Home.card (i + k)) (nth_error rows k).
Proof.
  revert i k. induction rows as [|r rows IH]; intros i k; simpl.
  - now destruct k.
  - destruct k as [|k]; simpl.
    + now rewrite Nat.add_0_r.
    + rewrite IH. now rewrite Nat.add_succ_r.
Qed.

(** X7: a non-empty catalog is shown as one card per row, in row order:
    the card at position [k] is built from row [k] and its button carries
    the index [k], the index at which the buy callback looks the row
    up. *)
Theorem one_card_per_row_in_order (r0 : Home.row) (rows : list Home.row) :
  exists cards,
    Home.create_product_cards (r0 :: rows) = Node "Div" [] cards
    /\ List.length cards = List.length (r0 :: rows)
    /\ forall k, nth_error cards k
                 = option_map (Home.card k) (nth_error (r0 :: rows) k).
Proof.
  exists (Home.cards_from 0 (r0 :: rows)). split; [reflexivity|]. split.
  - generalize 0%nat. generalize (r0 :: rows). intros l.
    induction l as [|a l IH]; intros i; simpl; [reflexivity|].
    now rewrite IH.
  - intros k. apply cards_from_nth.
Qed.

Lemma fetch_products_data_reads (s : state W) :
  after_calls is_read s (snd (Home.fetch_products_data s)).
Proof.
  unfold Home.fetch_products_data. unfold bind at 1. unfold stripe_Product_list.
  pose proof (request_after is_read (Product_list 100)
                (fun k => do_Product_list k 100) s I) as Hr.
  destruct (request _ _ s) as [[products|e] s1]; simpl in *; [|exact Hr].
  pose proof (for_each_after is_read
                (fun product =>
                   (prices <- stripe_Price_list (prod_id product) 10 ;;
                    ret (map (Home.make_row product) prices))%py)) as Hl.
  specialize (Hl (fun a s0 =>
                    ltac:(unfold bind, stripe_Price_list;
                          pose proof (request_after is_read
                                        (Price_list (prod_id a) 10)
                                        (fun k => do_Price_list k (prod_id a) 10)
                                        s0 I) as Hq;
                          destruct (request _ _ s0) as [[x|x] s2];
                          exact Hq))
                 products s1).
  unfold bind.
  destruct (for_each _ products s1) as [[rowss|e] s2]; simpl in *;
    eapply after_calls_trans; eauto.
Qed.

Lemma catalog_import_total_aux (s : state W) :
  exists m, Home.import_module s = (Ok m, snd (Home.fetch_products_data s)).
Proof.
  unfold Home.import_module, bind, try_except.
  destruct (Home.fetch_products_data s) as [[rows|e] s1]; simpl;
    eexists; reflexivity.
Qed.

(** X8: importing the catalog module never raises and only reads from
    the provider. If the fetch raised, at the product list or at the
    price list of any product, the module holds no row at all (rows
    gathered before the failure are dropped) and the banner text is
    "Error fetching Stripe products: " followed by the exception's text;
    if the fetch returned, the module holds its rows and no banner. *)
Theorem catalog_import_is_all_or_nothing (s : state W) :
  exists m,
    Home.import_module s = (Ok m, snd (Home.fetch_products_data s))
    /\ after_calls is_read s (snd (Home.fetch_products_data s))
    /\ Home.layout m = Home.page_layout (Home.products_df m) (Home.error_message m)
    /\ match fst (Home.fetch_products_data s) with
       | Ok rows => Home.products_df m = rows /\ Home.error_message m = None
       | Raise e =>
           Home.products_df m = []
           /\ Home.error_message m
              = Some (Lit "Error fetching Stripe products: " :: str_exn e)
       end.
Proof.
  pose proof (fetch_products_data_reads s) as Hreads.
  unfold Home.import_module, bind, try_except.
  destruct (Home.fetch_products_data s) as [[rows|e] s1]; simpl in *;
    eexists; repeat split; auto.
Qed.

End CatalogFacts.

(** ** The creation form, further *)

Section CreationFacts.

Context {W : Type} `{Stripe W}.

Import CreateProduct.

Lemma recent_card_step_lists (s : state W) (product : product) :
  after_calls (fun c => exists id, c = Price_list id 1) s
    (snd ((prices <- stripe_Price_list (prod_id product) 1 ;;
           ret (recent_card product (price_info prices)))%py s)).
Proof.
  unfold bind, stripe_Price_list.
  pose proof (request_after (fun c => exists id, c = Price_list id 1)
                (Price_list (prod_id product) 1)
                (fun k => do_Price_list k (prod_id product) 1) s
                (ex_intro _ (prod_id product) eq_refl)) as Hr.
  destruct (request _ _ s) as [[prices|e] s1]; simpl in *; exact Hr.
Qed.

(** X9: the refresh of the recently-created list never raises: it always
    returns a component. It lists the products once, with limit 5, then
    only lists prices, with limit 1, and touches nothing else. When the
    product list raises, the component is the text "Error fetching
    products: " with the exception's text; when no product is listed, it
    is "No products found."; in both cases no price is asked for. *)
Theorem recent_products_refresh_never_fails (s : state W) :
  exists recent w new,
    fetch_recent_products s
    = (Ok recent, with_calls s w (Product_list 5 :: new))
    /\ Forall (fun c => exists id, c = Price_list id 1) new
    /\ (forall e w',
          do_Product_list (api_key s) 5 (world s) = (Raise e, w') ->
          recent = Node "P" [] [Leaf (Lit "Error fetching products: " :: str_exn e)]
          /\ new = [])
    /\ (forall w',
          do_Product_list (api_key s) 5 (world s) = (Ok [], w') ->
          recent = Node "P" [] [Leaf [Lit "No products found."]] /\ new = []).
Proof.
  unfold fetch_recent_products, try_except. unfold bind at 1.
  unfold stripe_Product_list. rewrite request_run.
  destruct (do_Product_list (api_key s) 5 (world s)) as [[products|e] w] eqn:Hp;
    cbn [fst snd].
  - destruct products as [|p ps].
    + eexists _, w, []. split; [reflexivity|]. split; [constructor|].
      split; [discriminate|]. intros w' _. auto.
    + pose proof (for_each_after (fun c => exists id, c = Price_list id 1)
                    (fun product =>
                       (prices <- stripe_Price_list (prod_id product) 1 ;;
                        ret (recent_card product (price_info prices)))%py)
                    (fun a s0 => recent_card_step_lists s0 a) (p :: ps)
                    (with_calls s w [Product_list 5])) as Hl.
      unfold bind at 1.
      match goal with
      | |- context [for_each ?f (p :: ps) ?st] =>
          destruct (for_each f (p :: ps) st) as [[cards|e] s2]
      end; cbn [fst snd] in *;
        destruct Hl as (w2 & l & -> & Hl); rewrite with_calls_twice;
        (eexists _, w2, l; split; [reflexivity|]; split; [exact Hl|];
         split; discriminate).
  - eexists _, w, []. split; [reflexivity|]. split; [constructor|].
    split; [|discriminate]. intros e' w' [= <- _]. auto.
Qed.

Section Submission.

Variables (n : Z) (name description image : option string)
          (price_type interval : string) (amount : pyval) (currency : string)
          (nickname meta_key meta_value : option string) (s : state W).


(** X11: when the product is created and the price is then refused, the
    flow stops there: the calls are the two creates and nothing after
    them (the created product is left at the provider, without a price),
    the form is left as it was, and the message is the one the exception
    alone determines, the same as if the product had been refused. *)
Theorem refused_price_leaves_the_product (cents : Z) (product : product)
        (e : exn) (w w' : W) :
  n <> 0 -> truthy (of_field name) = true -> truthy amount = true ->
  amount_to_cents amount = Ok cents ->
  do_Product_create (api_key s)
    (make_product_data name description image meta_key meta_value) (world s)
  = (Ok product, w) ->
  do_Price_create (api_key s)
    (make_price_data product cents currency nickname price_type interval) w
  = (Raise e, w') ->
  create_product n name description image price_type interval amount currency
                 nickname meta_key meta_value s
  = (Ok (only_message (error_of e)),
     {| world := w'; api_key := api_key s;
        calls := calls s
                 ++ [Product_create
                       (make_product_data name description image meta_key meta_value);
                     Price_create
                       (make_price_data product cents currency nickname
                                        price_type interval)];
        tabs := tabs s; stdout := stdout s |}).
Proof.
  intros Hn Hname Hamount Hc Hp Hq.
  pose proof (create_product_run n name description image price_type interval
                amount currency nickname meta_key meta_value s cents
                Hn Hname Hamount Hc) as Hspec.
  rewrite Hp in Hspec. cbv zeta in Hspec. rewrite Hq in Hspec. exact Hspec.
Qed.

(** X12: no exception leaves the callback except [PreventUpdate], and
    that one only when the click count is 0: every submission returns
    its nine outputs, with a message to show, whatever the provider
    raises. *)
Theorem every_submission_shows_a_message :
  let run := create_product n name description image price_type interval amount
                            currency nickname meta_key meta_value s in
  (n = 0 /\ run = (Raise PreventUpdate, s))
  \/ (n <> 0 /\ exists o h, fst run = Ok o /\ out_create_message o = Set_ h).
Proof.
  cbv zeta.
  destruct (Z.eq_dec n 0) as [Hn|Hn];
    [left; split; [exact Hn | now apply create_product_not_clicked]|].
  right. split; [exact Hn|].
  destruct (truthy (of_field name)) eqn:Hname;
    [|rewrite create_product_rejected by auto; simpl; eexists _, _; split; reflexivity].
  destruct (truthy amount) eqn:Hamount;
    [|rewrite create_product_rejected by auto; simpl; eexists _, _; split; reflexivity].
  destruct (amount_to_cents amount) as [cents|e] eqn:Hc;
    [|rewrite (create_product_bad_amount _ _ _ _ _ _ _ _ _ _ _ s e) by auto;
      simpl; eexists _, _; split; reflexivity].
  pose proof (create_product_run n name description image price_type interval
                amount currency nickname meta_key meta_value s cents
                Hn Hname Hamount Hc) as Hspec.
  destruct (do_Product_create (api_key s) _ (world s)) as [[product|e] w].
  - cbv zeta in Hspec.
    destruct (do_Price_create (api_key s) _ w) as [[price|e] w'].
    + destruct Hspec as (recent & s1 & _ & Hsub). rewrite Hsub. simpl. eexists _, _; split; reflexivity.
    + rewrite Hspec. simpl. eexists _, _; split; reflexivity.
  - rewrite Hspec. simpl. eexists _, _; split; reflexivity.
Qed.

(** X13: the form's stated minimum of 0.50 is not checked by the
    callback: any amount that is not empty, not zero and converts to an
    integer goes to the provider, whether the result is below 50 minor
    units, zero or negative. *)
Theorem no_minimum_amount_is_enforced (cents : Z) :
  n <> 0 -> truthy (of_field name) = true -> truthy amount = true ->
  amount_to_cents amount = Ok cents ->
  exists rest,
    calls (snd (create_product n name description image price_type interval
                               amount currency nickname meta_key meta_value s))
    = (calls s
       ++ Product_create
            (make_product_data name description image meta_key meta_value)
          :: rest)%list.
Proof.
  intros Hn Hname Hamount Hc.
  pose proof (create_product_run n name description image price_type interval
                amount currency nickname meta_key meta_value s cents
                Hn Hname Hamount Hc) as Hspec.
  destruct (do_Product_create (api_key s) _ (world s)) as [[product|e] w].
  - cbv zeta in Hspec.
    destruct (do_Price_create (api_key s) _ w) as [[price|e] w'].
    + destruct Hspec as (recent & s1 & Hf & Hsub). rewrite Hsub. simpl.
      destruct (fetch_recent_products_ok
                  (with_calls s w'
                     [Product_create
                        (make_product_data name description image meta_key meta_value);
                      Price_create
                        (make_price_data product cents currency nickname
                                         price_type interval)]))
        as (recent' & s1' & Hf' & (w2 & l & Hs1 & Hl)).
      rewrite Hf in Hf'. injection Hf' as _ <-. subst s1. simpl.
      eexists. rewrite <- app_assoc. reflexivity.
    + rewrite Hspec. simpl. eexists. reflexivity.
  - rewrite Hspec. simpl. eexists. reflexivity.
Qed.

(** X14: an amount that [float] accepts as NaN or as an infinity (JSON
    [NaN] or [Infinity], or the strings "nan" and "inf") passes the
    validation, since it is neither empty nor zero, and fails in [int]:
    no provider call is made and the generic error is shown, a
    [ValueError] for NaN and an [OverflowError] for an infinity. *)
Theorem nan_or_infinite_amount_fails_before_any_call (x : F64.float) :
  n <> 0 -> truthy (of_field name) = true -> truthy amount = true ->
  py_float amount = Ok x ->
  x = S754_nan \/ (exists sign, x = S754_infinity sign) ->
  create_product n name description image price_type interval amount currency
                 nickname meta_key meta_value s
  = (Ok (only_message
           (unexpected_error
              match x with
              | S754_nan =>
                  PyError "ValueError" [Lit "cannot convert float NaN to integer"]
              | _ =>
                  PyError "OverflowError"
                          [Lit "cannot convert float infinity to integer"]
              end)), s).
Proof.
  intros Hn Hname Hamount Hx Hbad.
  assert (H100 : exists m e, F64.of_Z 100 = S754_finite false m e)
    by (vm_compute; eauto).
  destruct H100 as (m100 & e100 & H100).
  rewrite (create_product_bad_amount n name description image price_type interval
             amount currency nickname meta_key meta_value s
             match x with
             | S754_nan =>
                 PyError "ValueError" [Lit "cannot convert float NaN to integer"]
             | _ =>
                 PyError "OverflowError"
                         [Lit "cannot convert float infinity to integer"]
             end); auto.
  - destruct Hbad as [-> | [sign ->]]; reflexivity.
  - unfold amount_to_cents. rewrite Hx, H100.
    destruct Hbad as [-> | [sign ->]]; reflexivity.
Qed.

End Submission.

End CreationFacts.

Lemma holds_upto_spec (f : Z -> bool) (n : nat) :
  holds_upto f n = true ->
  forall c, 1 <= c <= Z.of_nat n -> f c = true.
Proof.
  induction n as [|n IH]; intros Hall c Hc; [lia|].
  cbn [holds_upto] in Hall. apply andb_true_iff in Hall. destruct Hall as [Hn Hrest].
  destruct (Z.eq_dec c (Z.of_nat (S n))) as [->|Hne]; [exact Hn|].
  apply IH; [exact Hrest | lia].
Qed.

(** X15: for every amount from 0.01 to 100.00 in whole minor units,
    delivered as the nearest float, the conversion gives the number of
    minor units or one less, never more and never anything else. *)
Theorem entered_cents_convert_within_one (c : Z) :
  1 <= c <= 10000 ->
  CreateProduct.amount_to_cents (entered c) = Ok c
  \/ CreateProduct.amount_to_cents (entered c) = Ok (c - 1).
Proof.
  intros Hc.
  assert (Hall : holds_upto converts_within_one (Z.to_nat 10000) = true)
    by (vm_compute; reflexivity).
  pose proof (holds_upto_spec converts_within_one (Z.to_nat 10000) Hall c
                ltac:(rewrite Z2Nat.id; lia)) as Hok.
  unfold converts_within_one in Hok.
  destruct (CreateProduct.amount_to_cents (entered c)) as [z|e]; [|discriminate].
  apply orb_true_iff in Hok. destruct Hok as [Hz|Hz]; apply Z.eqb_eq in Hz; subst; auto.
Qed.

(** ** Analytics, further *)

Section RevenueFacts.

Import Analytics.

Lemma group_keys_from_rows (df : list row) (k : Z) :
  In k (group_keys df) -> exists r, In r df /\ date r = k.
Proof.
  unfold group_keys. induction df as [|r df IH]; simpl; [tauto|].
  intros Hk. apply insert_key_In in Hk. destruct Hk as [->|Hk].
  - exists r. auto.
  - destruct (IH Hk) as (r' & Hr' & Hd). exists r'. auto.
Qed.

Lemma groupby_date_keys (df : list row) :
  map fst (groupby_date df) = group_keys df.
Proof.
  unfold groupby_date. rewrite map_map. simpl. apply map_id.
Qed.

Lemma max_count_fold (l : list Z) (v : Z) :
  In (fold_left Z.max l v) (v :: l)
  /\ v <= fold_left Z.max l v
  /\ Forall (fun x => x <= fold_left Z.max l v) l.
Proof.
  revert v. induction l as [|x l IH]; intros v; simpl.
  - repeat split; auto; lia.
  - destruct (IH (Z.max v x)) as (Hin & Hle & Hall).
    split; [|split].
    + destruct Hin as [Hin|Hin]; [|auto].
      rewrite <- Hin. destruct (Z.max_spec v x) as [[_ ->]|[_ ->]]; auto.
    + lia.
    + constructor; [lia | exact Hall].
Qed.

Lemma member_below_sum (l : list Z) (x : Z) :
  Forall (fun y => 0 <= y) l -> In x l -> x <= sumZ l.
Proof.
  induction 1 as [|y l Hy Hall IH]; [intros []|].
  assert (Hs : 0 <= sumZ l).
  { clear IH. induction Hall as [|z l Hz Hall IH]; [reflexivity|].
    rewrite sumZ_cons. lia. }
  rewrite sumZ_cons. intros [->|Hin]; [lia|]. specialize (IH Hin). lia.
Qed.

(** The invariants of the day groups, for the proofs below. *)
Lemma daily_groups_are_days_aux (df : list row) :
  StronglySorted Z.lt (map fst (groupby_date df))
  /\ Forall (fun g => snd g <> []
                      /\ Forall (fun r => date r = fst g /\ In r df) (snd g))
            (groupby_date df)
  /\ (forall r, In r df -> In (date r) (map fst (groupby_date df))).
Proof.
  split; [rewrite groupby_date_keys; apply group_keys_sorted|]. split.
  - unfold groupby_date. apply Forall_forall. intros g Hg.
    apply in_map_iff in Hg. destruct Hg as (k & <- & Hk). simpl. split.
    + destruct (group_keys_from_rows df k Hk) as (r & Hr & Hd).
      intros Hnil.
      assert (Hin : In r (filter (fun r0 => date r0 =? k) df))
        by (apply filter_In; split; [exact Hr | now apply Z.eqb_eq]).
      rewrite Hnil in Hin. exact Hin.
    + apply Forall_forall. intros r Hr. apply filter_In in Hr.
      destruct Hr as [Hr Hd]. apply Z.eqb_eq in Hd. auto.
  - intros r Hr. rewrite groupby_date_keys. now apply group_keys_In.
Qed.

Lemma daily_groups_sorted_nonempty (df : list row) :
  StronglySorted Z.lt (map fst (groupby_date df))
  /\ Forall (fun day =>
               (1 <= List.length (filter (fun r => (date r =? day)%Z) df))%nat)
            (map fst (groupby_date df)).
Proof.
  destruct (daily_groups_are_days_aux df) as (Hs & Hall & _).
  split; [exact Hs|].
  rewrite groupby_date_keys. apply Forall_forall. intros k Hk.
  destruct (group_keys_from_rows df k Hk) as (r & Hr & Hd).
  assert (Hin : In r (filter (fun r0 => date r0 =? k) df))
    by (apply filter_In; split; [exact Hr | now apply Z.eqb_eq]).
  destruct (filter (fun r0 => date r0 =? k) df); [contradiction | simpl; lia].
Qed.

(** X16: the day groups are days: the group dates are strictly
    increasing (so no date occurs twice), every group has at least one
    row, every row of a group has the group's date and is a row of the
    data, and every row's date has its group. *)
Theorem daily_groups_are_days (df : list row) :
  StronglySorted Z.lt (map fst (groupby_date df))
  /\ Forall (fun g => snd g <> []
                      /\ Forall (fun r => date r = fst g /\ In r df) (snd g))
            (groupby_date df)
  /\ (forall r, In r df -> In (date r) (map fst (groupby_date df))).
Proof. exact (daily_groups_are_days_aux df). Qed.

(** X17: with no data the chart is the placeholder: the "no payment
    data" annotation and no series. With data it has no annotation and
    exactly two series, the revenue bars on axis y and the volume line
    on axis y2, over the same dates; the dates are strictly increasing,
    there is one point per series and date, and each volume is the
    number of rows of that date, at least 1. *)
Theorem revenue_chart_series (df : list row) :
  match df with
  | [] =>
      fig_annotation (create_revenue_chart df)
      = Some "No payment data found in the last 30 days"
      /\ fig_traces (create_revenue_chart df) = []
  | _ :: _ =>
      fig_annotation (create_revenue_chart df) = None
      /\ exists bars line,
           fig_traces (create_revenue_chart df) = [bars; line]
           /\ tr_yaxis bars = "y" /\ tr_yaxis line = "y2"
           /\ tr_x bars = tr_x line
           /\ StronglySorted Z.lt (tr_x bars)
           /\ List.length (tr_y bars) = List.length (tr_x bars)
           /\ tr_y line
              = map (fun day =>
                       PInt (Z.of_nat
                               (List.length (filter (fun r => date r =? day) df))))
                    (tr_x line)
           /\ Forall (fun day =>
                        (1 <= List.length (filter (fun r => (date r =? day)%Z) df))%nat)
                     (tr_x line)
  end.
Proof.
  destruct df as [|r0 df']; [split; reflexivity|].
  set (df := r0 :: df').
  split; [reflexivity|].
  eexists _, _. split; [reflexivity|]. cbn [tr_yaxis tr_x tr_y].
  assert (Hx : map (fun d : Z * F64.float * Z => fst (fst d)) (daily_revenue df)
               = map fst (groupby_date df))
    by (unfold daily_revenue; rewrite map_map; reflexivity).
  split; [reflexivity|]. split; [reflexivity|]. split; [reflexivity|].
  rewrite Hx. destruct (daily_groups_sorted_nonempty df) as (Hs & Hne).
  split; [exact Hs|].
  split; [unfold daily_revenue; rewrite !length_map; reflexivity|]. split.
  - unfold daily_revenue, groupby_date. rewrite !map_map. reflexivity.
  - exact Hne.
Qed.

(** X18: with data, the busiest day's count shown in the insights is the
    largest daily volume: it is the volume of one of the days, no day
    has more, and it lies between 1 and the number of transactions. *)
Theorem busiest_day_is_the_largest_volume (r0 : row) (df' : list row)
        (total_transactions : Z) :
  let df := r0 :: df' in
  let volumes := map (fun g => Z.of_nat (List.length (snd g))) (groupby_date df) in
  exists busiest lead,
    nth 0 (insights df total_transactions) []
    = [Lit lead; Fmt (PInt busiest) ""; Lit " transactions"]
    /\ In busiest volumes
    /\ Forall (fun v => v <= busiest) volumes
    /\ 1 <= busiest <= Z.of_nat (List.length df).
Proof.
  cbv zeta. set (df := r0 :: df').
  set (volumes := map (fun g => Z.of_nat (List.length (snd g))) (groupby_date df)).
  exists (max_count volumes). eexists. split; [reflexivity|].
  assert (Hne : volumes <> []).
  { unfold volumes, groupby_date. rewrite map_map.
    assert (Hk : In (date r0) (group_keys df))
      by (apply group_keys_In; now left).
    destruct (group_keys df); [contradiction | discriminate]. }
  assert (Hpos : Forall (fun v => 1 <= v) volumes).
  { unfold volumes. apply Forall_forall. intros v Hv.
    apply in_map_iff in Hv. destruct Hv as (g & <- & Hg).
    pose proof (proj1 (proj2 (daily_groups_are_days_aux df))) as Hall.
    rewrite Forall_forall in Hall. destruct (Hall g Hg) as [Hnil _].
    destruct (snd g); [contradiction | simpl; lia]. }
  assert (Hsum : sumZ volumes = Z.of_nat (List.length df)).
  { unfold volumes.
    rewrite <- (sumZ_ones df), <- (sumZ_permutation _ _
                  (Permutation_map (fun _ => 1) (groupby_date_partition df))).
    rewrite <- sumZ_concat, map_map. f_equal. apply map_ext.
    intros g. now rewrite sumZ_ones. }
  destruct volumes as [|v vs] eqn:Hv; [contradiction|].
  unfold max_count. destruct (max_count_fold vs v) as (Hin & Hle & Hall).
  split; [exact Hin|]. split; [constructor; assumption|].
  split.
  - rewrite Forall_forall in Hpos. apply Hpos. exact Hin.
  - rewrite <- Hsum. apply member_below_sum; [|exact Hin].
    eapply Forall_impl; [|exact Hpos]. simpl. intros; lia.
Qed.

End RevenueFacts.

Section RevenueImport.

Context {W : Type} `{Stripe W}.

Import Analytics.

(** The import of the analytics module, by the provider's answer. *)
Lemma analytics_import_run (s : state W) :
  Analytics.import_module s
  = match do_PaymentIntent_list (api_key s) 100
            (Some (timestamp_days_ago 30 (world s))) (world s) with
    | (Ok payments, w) =>
        let df := map (make_row local_date) (filter succeeded payments) in
        (Ok {| revenue_df := df;
               error_message := None;
               total_revenue := fst (fst (metrics df));
               total_transactions := snd (fst (metrics df));
               avg_transaction := snd (metrics df);
               layout := page_layout df None (fst (fst (metrics df)))
                                     (snd (fst (metrics df))) (snd (metrics df)) |},
         with_calls s w [PaymentIntent_list 100
                           (Some (timestamp_days_ago 30 (world s)))])
    | (Raise e, w) =>
        (Ok {| revenue_df := [];
               error_message :=
                 Some (Lit "Error fetching Stripe revenue data: " :: str_exn e);
               total_revenue := PInt 0;
               total_transactions := 0;
               avg_transaction := PInt 0;
               layout := page_layout
                           [] (Some (Lit "Error fetching Stripe revenue data: "
                                     :: str_exn e))
                           (PInt 0) 0 (PInt 0) |},
         with_calls s w [PaymentIntent_list 100
                           (Some (timestamp_days_ago 30 (world s)))])
    end.
Proof.
  unfold Analytics.import_module, bind, try_except, fetch_revenue_data, bind,
    thirty_days_ago_now.
  unfold stripe_PaymentIntent_list. rewrite request_run.
  destruct (do_PaymentIntent_list (api_key s) 100 _ (world s))
    as [[payments|e] w]; simpl; [|reflexivity].
  now destruct (metrics _) as [[total count] avg].
Qed.

(** X19: when the payment list raises, or lists no payment with status
    "succeeded", the analytics module is imported all the same, with no
    row, total revenue 0, no transaction and average 0, and the chart is
    the "no payment data" placeholder; the banner is present exactly in
    the first case, with the exception's text. *)
Theorem analytics_without_data_shows_zeros (s : state W) :
  (exists e w,
      do_PaymentIntent_list (api_key s) 100
        (Some (timestamp_days_ago 30 (world s))) (world s) = (Raise e, w))
  \/ (exists payments w,
        do_PaymentIntent_list (api_key s) 100
          (Some (timestamp_days_ago 30 (world s))) (world s) = (Ok payments, w)
        /\ Forall (fun p => pi_status p <> "succeeded") payments) ->
  exists m s',
    Analytics.import_module s = (Ok m, s')
    /\ revenue_df m = []
    /\ total_revenue m = PInt 0
    /\ total_transactions m = 0
    /\ avg_transaction m = PInt 0
    /\ create_revenue_chart (revenue_df m)
       = {| fig_title := "Revenue Overview (Last 30 Days)";
            fig_annotation := Some "No payment data found in the last 30 days";
            fig_traces := [] |}
    /\ layout m = page_layout [] (error_message m) (PInt 0) 0 (PInt 0)
    /\ error_message m
       = match fst (do_PaymentIntent_list (api_key s) 100
                      (Some (timestamp_days_ago 30 (world s))) (world s)) with
         | Raise e => Some (Lit "Error fetching Stripe revenue data: " :: str_exn e)
         | Ok _ => None
         end.
Proof.
  intros Hno. rewrite analytics_import_run.
  destruct Hno as [(e & w & ->) | (payments & w & -> & Hall)].
  - eexists _, _. repeat split.
  - assert (Hnone : filter succeeded payments = []).
    { clear -Hall. induction Hall as [|p l Hp Hall IH]; [reflexivity|].
      simpl. unfold succeeded at 1.
      destruct (String.eqb_spec (pi_status p) "succeeded"); [contradiction|].
      exact IH. }
    cbv zeta. rewrite Hnone. eexists _, _. repeat split.
Qed.

(** X20: the analytics module asks the provider once, for at most 100
    payment intents created at or after the timestamp of 30 days before
    the import, and for nothing else. When the list is returned, the
    rows are the listed payments with status "succeeded", in the listed
    order, each with its amount divided by 100 and its currency in upper
    case; payments of any other status add no row, so the number of
    transactions is the number of succeeded payments listed. *)
Theorem analytics_import_keeps_succeeded_payments
        (s : state W) (payments : list payment_intent) (w : W) :
  do_PaymentIntent_list (api_key s) 100
    (Some (timestamp_days_ago 30 (world s))) (world s) = (Ok payments, w) ->
  exists m,
    Analytics.import_module s
    = (Ok m, {| world := w; api_key := api_key s;
                calls := calls s
                         ++ [PaymentIntent_list 100
                               (Some (timestamp_days_ago 30 (world s)))];
                tabs := tabs s; stdout := stdout s |})
    /\ error_message m = None
    /\ map (fun r => (date r, amount r, currency r)) (revenue_df m)
       = map (fun p => (local_date (pi_created p),
                        F64.ratio (pi_amount p) 100,
                        Str.upper (pi_currency p)))
             (filter (fun p => (pi_status p =? "succeeded")%string) payments)
    /\ total_transactions m
       = Z.of_nat (List.length
                     (filter (fun p => (pi_status p =? "succeeded")%string) payments))
    /\ (total_transactions m <= Z.of_nat (List.length payments)).
Proof.
  intros Hp. rewrite analytics_import_run, Hp. cbv zeta.
  eexists. split; [reflexivity|]. cbn [error_message revenue_df total_transactions].
  split; [reflexivity|]. split; [now rewrite map_map|].
  assert (Hcount : snd (fst (metrics (map (make_row local_date)
                                          (filter succeeded payments))))
                   = Z.of_nat (List.length (filter succeeded payments))).
  { destruct (filter succeeded payments); [reflexivity|].
    simpl. now rewrite length_map. }
  rewrite Hcount. split; [reflexivity|].
  apply inj_le. apply filter_length_le.
Qed.

Lemma analytics_import_reads (s : state W) :
  after_calls is_read s (snd (Analytics.import_module s)).
Proof.
  rewrite analytics_import_run.
  destruct (do_PaymentIntent_list (api_key s) 100 _ (world s))
    as [[payments|e] w]; cbv zeta; simpl;
    (eexists _, _; split; [reflexivity | repeat constructor]).
Qed.

(** X23: the process start never raises, whatever the credential and
    whatever the provider answers, and it only reads: it stores the
    credential, makes list calls and nothing else (nothing is created,
    no session is opened, no tab, no output). *)
Theorem startup_only_reads (STRIPE_SECRET_KEY : option string) (s : state W) :
  exists a w new,
    App.startup STRIPE_SECRET_KEY s
    = (Ok a, {| world := w; api_key := STRIPE_SECRET_KEY;
                calls := calls s ++ new;
                tabs := tabs s; stdout := stdout s |})
    /\ Forall is_read new.
Proof.
  unfold App.startup, bind. simpl.
  pose proof (analytics_import_reads (snd (set_api_key STRIPE_SECRET_KEY s))) as Ha.
  destruct (analytics_import_total (snd (set_api_key STRIPE_SECRET_KEY s)))
    as (ma & sa & Hma & _).
  simpl in Ha, Hma. rewrite Hma in Ha |- *. simpl in Ha.
  pose proof (fetch_products_data_reads sa) as Hh.
  destruct (catalog_import_total_aux sa) as (mh & Hmh).
  rewrite Hmh. simpl.
  destruct Ha as (w1 & l1 & -> & Hl1). destruct Hh as (w2 & l2 & Hs2 & Hl2).
  rewrite Hs2. rewrite with_calls_twice. unfold with_calls; simpl.
  eexists _, _, _. split; [reflexivity|]. apply Forall_app. now split.
Qed.

End RevenueImport.

(** ** The two check scripts *)

Section Scripts.

Context {W : Type} `{Stripe W}.

Lemma print_all_only_prints (lines : list text) :
  only_prints (W := W) (ApiBasics.print_all lines).
Proof. intros s. exists lines. apply print_all_run. Qed.

Lemma report_only_prints (e : exn) : only_prints (W := W) (ApiBasics.report e).
Proof.
  unfold ApiBasics.report.
  repeat match goal with
         | |- only_prints (match ?x with _ => _ end) => destruct x
         end;
    apply print_all_only_prints.
Qed.

(** The four calls of the connectivity check, in order. *)
Lemma connection_test_run (s : state W) :
  exists r k w lines,
    ApiBasics.connection_test s
    = (r, {| world := w; api_key := api_key s;
             calls := calls s
                      ++ firstn k [Account_retrieve; Product_list 3;
                                   Customer_list 3; PaymentIntent_list 3 None];
             tabs := tabs s; stdout := stdout s ++ lines |})
    /\ (1 <= k <= 4)%nat.
Proof.
  unfold ApiBasics.connection_test.
  unfold bind at 1. unfold stripe_Account_retrieve. rewrite request_run.
  destruct (do_Account_retrieve (api_key s) (world s)) as [[account|e] w1];
    cbn [fst snd].
  2:{ exists (Raise e), 1%nat, w1, []. split; [|lia].
      unfold with_calls. simpl. now rewrite app_nil_r. }
  unfold bind at 1. rewrite print_all_run. cbn [fst snd].
  unfold bind at 1. unfold stripe_Product_list. rewrite request_run.
  cbn [api_key world calls tabs stdout with_calls].
  destruct (do_Product_list (api_key s) 3 w1) as [[products|e] w2]; cbn [fst snd].
  2:{ exists (Raise e), 2%nat, w2. eexists. split; [|lia].
      unfold with_calls. simpl. rewrite <- !app_assoc. reflexivity. }
  unfold bind at 1. unfold print at 1. cbn [fst snd].
  unfold bind at 1.
  assert (Hlist : only_prints (W := W)
            match products with
            | [] => print [Lit "   No products found. Create some in your Stripe Dashboard!"]
            | _ :: _ =>
                (print [Lit "   Products:"] ;;;
                 ApiBasics.print_all
                   (map (fun product =>
                           [Lit "   - "; Fmt (PStr (prod_name product)) "";
                            Lit " ("; Fmt (PStr (prod_id product)) ""; Lit ")"])
                        products))%py
            end).
  { destruct products as [|p ps]; intros s0.
    - eexists [_]. reflexivity.
    - unfold bind, print. rewrite print_all_run. simpl.
      eexists. rewrite <- app_assoc. reflexivity. }
  match goal with
  | |- context [match products with [] => _ | _ :: _ => _ end ?st] =>
      destruct (Hlist st) as (lines1 & ->)
  end.
  cbn [fst snd api_key world calls tabs stdout].
  unfold bind at 1. rewrite print_all_run. cbn [fst snd].
  unfold bind at 1. unfold stripe_Customer_list. rewrite request_run.
  cbn [api_key world calls tabs stdout with_calls].
  destruct (do_Customer_list (api_key s) 3 w2) as [[customers|e] w3]; cbn [fst snd].
  2:{ exists (Raise e), 3%nat, w3. eexists. split; [|lia].
      unfold with_calls. simpl. rewrite <- !app_assoc. reflexivity. }
  unfold bind at 1. unfold print at 1. cbn [fst snd].
  unfold bind at 1. rewrite print_all_run. cbn [fst snd].
  unfold bind at 1. unfold stripe_PaymentIntent_list. rewrite request_run.
  cbn [api_key world calls tabs stdout with_calls].
  destruct (do_PaymentIntent_list (api_key s) 3 None w3) as [[payments|e] w4];
    cbn [fst snd].
  2:{ exists (Raise e), 4%nat, w4. eexists. split; [|lia].
      unfold with_calls. simpl. rewrite <- !app_assoc. reflexivity. }
  unfold bind at 1. unfold print at 1. cbn [fst snd].
  rewrite print_all_run. cbn [api_key world calls tabs stdout].
  exists (Ok tt), 4%nat, w4. eexists. split; [|lia].
  unfold with_calls. simpl. rewrite <- !app_assoc. reflexivity.
Qed.

Lemma connect_run (key : string) (s : state W) :
  exists k w lines,
    ApiBasics.connect key s
    = (Ok 0, {| world := w; api_key := Some key;
                calls := calls s
                         ++ firstn k [Account_retrieve; Product_list 3;
                                      Customer_list 3; PaymentIntent_list 3 None];
                tabs := tabs s; stdout := stdout s ++ lines |})
    /\ (1 <= k <= 4)%nat.
Proof.
  unfold ApiBasics.connect. unfold bind at 1. unfold set_api_key at 1.
  cbn [fst snd]. unfold bind at 1. unfold try_except.
  destruct (connection_test_run
              {| world := world s; api_key := Some key; calls := calls s;
                 tabs := tabs s; stdout := stdout s |})
    as (r & k & w & lines & Hrun & Hk).
  rewrite Hrun. cbn [api_key world calls tabs stdout].
  destruct r as [[]|e].
  - unfold bind. rewrite print_all_run. simpl.
    exists k, w. eexists. split; [|exact Hk].
    rewrite <- app_assoc. reflexivity.
  - destruct (report_only_prints e
                {| world := w; api_key := Some key;
                   calls := calls s
                            ++ firstn k [Account_retrieve; Product_list 3;
                                         Customer_list 3; PaymentIntent_list 3 None];
                   tabs := tabs s; stdout := stdout s ++ lines |})
      as (lines' & ->).
    unfold bind. rewrite print_all_run. simpl.
    exists k, w. eexists. split; [|exact Hk].
    rewrite <- !app_assoc. reflexivity.
Qed.

(** X21: once the credential has one of the two accepted prefixes, the
    connectivity check sets it as the key and ends with status 0
    whatever the provider answers, also when the provider rejects the
    key or cannot be reached: a failure is only printed. Its provider
    calls are the first one, two, three or four of: retrieve the
    account, list 3 products, list 3 customers, list 3 payment intents,
    in that order, stopping at the first that raises; it creates
    nothing. *)
Theorem accepted_key_always_ends_with_status_0
        (STRIPE_SECRET_KEY : option string) (s : state W) :
  ApiBasics.accepted STRIPE_SECRET_KEY = true ->
  exists key k w lines,
    STRIPE_SECRET_KEY = Some key
    /\ ApiBasics.main STRIPE_SECRET_KEY s
       = (Ok 0, {| world := w; api_key := Some key;
                   calls := calls s
                            ++ firstn k [Account_retrieve; Product_list 3;
                                         Customer_list 3; PaymentIntent_list 3 None];
                   tabs := tabs s; stdout := stdout s ++ lines |})
    /\ (1 <= k <= 4)%nat.
Proof.
  intros Hacc. unfold ApiBasics.accepted in Hacc.
  unfold ApiBasics.main. unfold bind at 1. rewrite print_all_run. cbn [fst snd].
  destruct STRIPE_SECRET_KEY as [key0|]; [|discriminate].
  assert (Hkey : CreateProduct.present (Some key0) = Some key0).
  { unfold CreateProduct.present in *.
    destruct (String.eqb key0 ""); [discriminate | reflexivity]. }
  rewrite Hkey in Hacc |- *.
  exists key0.
  destruct (Str.startswith key0 "sk_test_") eqn:Ht.
  - unfold bind at 1. unfold print at 1. cbn [fst snd].
    match goal with
    | |- context [ApiBasics.connect key0 ?st] =>
        destruct (connect_run key0 st) as (k & w & lines & -> & Hk)
    end.
    exists k, w. eexists. split; [reflexivity|]. split; [|exact Hk].
    simpl. rewrite <- !app_assoc. reflexivity.
  - simpl in Hacc. rewrite Hacc.
    unfold bind at 1. rewrite print_all_run. cbn [fst snd].
    match goal with
    | |- context [ApiBasics.connect key0 ?st] =>
        destruct (connect_run key0 st) as (k & w & lines & -> & Hk)
    end.
    exists k, w. eexists. split; [reflexivity|]. split; [|exact Hk].
    simpl. rewrite <- !app_assoc. reflexivity.
Qed.

(** X22: the setup test never raises. It stores the credential as it
    found it and prints it in full on its first line. Without a
    credential (absent or empty) it makes no provider call; with one, of
    whatever form, it makes exactly one call, a product list with
    limit 1, and only prints what comes of it. *)
Theorem setup_test_prints_the_key_and_calls_once
        (STRIPE_SECRET_KEY : option string) (s : state W) :
  exists w lines,
    ApiConnectedTest.main STRIPE_SECRET_KEY s
    = (Ok tt,
       {| world := w; api_key := STRIPE_SECRET_KEY;
          calls := calls s
                   ++ match CreateProduct.present STRIPE_SECRET_KEY with
                      | Some _ => [Product_list 1]
                      | None => []
                      end;
          tabs := tabs s;
          stdout := stdout s
                    ++ [Lit "Environment variable STRIPE_SECRET_KEY: ";
                        Fmt (of_field STRIPE_SECRET_KEY) ""] :: lines |}).
Proof.
  unfold ApiConnectedTest.main. unfold bind at 1. unfold set_api_key at 1.
  cbn [fst snd]. unfold bind at 1. unfold print at 1.
  cbn [fst snd api_key world calls tabs stdout].
  destruct (CreateProduct.present STRIPE_SECRET_KEY) as [key|].
  - unfold bind at 1. unfold print at 1.
    cbn [fst snd api_key world calls tabs stdout].
    unfold try_except. unfold bind at 1. unfold stripe_Product_list.
    rewrite request_run. cbn [api_key world calls tabs stdout with_calls].
    destruct (do_Product_list STRIPE_SECRET_KEY 1 (world s)) as [[products|e] w];
      cbn [fst snd]; unfold print; simpl;
      (exists w; eexists; rewrite <- !app_assoc; reflexivity).
  - rewrite print_all_run. simpl.
    exists (world s). eexists. rewrite app_nil_r, <- !app_assoc. reflexivity.
Qed.

End Scripts.

(** ** Concrete runs of the further properties *)

Lemma buy_without_a_click_witness :
  Home.handle_buy_button Demo2.catalog [0%nat] [0; 0; 0] (fresh Demo.store Demo.key)
  = (Raise PreventUpdate, fresh Demo.store Demo.key).
Proof.
  apply (buy_without_a_click_does_nothing
           Demo2.catalog [0%nat] [0; 0; 0] (fresh Demo.store Demo.key)).
  right. simpl. intros c [<-|[<-|[<-|[]]]]; lia.
Defined.

Lemma first_buy_witness :
  nth_error (Home.products_df Demo2.catalog) 1 = Some Demo2.pro_row
  /\ calls (snd (Home.handle_buy_button Demo2.catalog [1%nat] [0; 1; 0]
                                         (fresh Demo.store Demo.key)))
     = ([] ++ [Session_create
                 {| payment_method_types := ["card"];
                    line_items := [("price_pro", 1)];
                    mode := "subscription";
                    success_url := "http://127.0.0.1:2245/?success=true";
                    cancel_url := "http://127.0.0.1:2245/?canceled=true" |}])%list.
Proof.
  assert (Hrow : nth_error (Home.products_df Demo2.catalog) 1 = Some Demo2.pro_row)
    by (vm_compute; reflexivity).
  split; [exact Hrow|].
  refine (proj1 (first_buy_checks_out_the_clicked_card
                   Demo2.catalog 1%nat [] [0; 1; 0] 1%nat 1 Demo2.pro_row
                   (fresh Demo.store Demo.key) eq_refl _ _ Hrow)).
  - lia.
  - intros j c' Hj Hn. destruct j as [|j]; [|lia].
    simpl in Hn. injection Hn as <-. lia.
Defined.

Lemma buy_beyond_the_catalog_witness :
  Home.products_df Demo2.failed_catalog = []
  /\ Home.handle_buy_button Demo2.failed_catalog [0%nat] [1]
                            (fresh Demo2.unreachable Demo.key)
     = (Raise PreventUpdate,
        {| world := Demo2.unreachable; api_key := Demo.key; calls := [];
           tabs := [];
           stdout := [] ++ [[Lit "Error creating checkout session: ";
                             Lit "single positional indexer is out-of-bounds"]] |}).
Proof.
  split; [vm_compute; reflexivity|].
  refine (buy_beyond_the_catalog_is_swallowed
            Demo2.failed_catalog 0%nat [] [1] 0%nat 1
            (fresh Demo2.unreachable Demo.key) eq_refl _ _ _).
  - lia.
  - intros j c' Hj. lia.
  - vm_compute. lia.
Defined.

Lemma refused_checkout_witness :
  Home.handle_buy_button Demo2.catalog [1%nat] [0; 1; 0]
                         (fresh Demo2.declining Demo.key)
  = (Raise PreventUpdate,
     {| world := Demo2.declining; api_key := Demo.key;
        calls := [] ++ [Session_create (Home.checkout_params Demo2.pro_row)];
        tabs := [];
        stdout := [] ++ [Lit "Error creating checkout session: "
                         :: str_exn (StripeError "InvalidRequestError"
                                                 [Lit "No such price"])] |}).
Proof.
  refine (refused_checkout_is_only_printed
            Demo2.catalog 1%nat [] [0; 1; 0] 1%nat Demo2.pro_row
            (StripeError "InvalidRequestError" [Lit "No such price"])
            Demo2.declining (fresh Demo2.declining Demo.key) eq_refl _ eq_refl).
  vm_compute. reflexivity.
Defined.

Lemma catalog_fetch_witness :
  exists products w,
    do_Product_list Demo.key 100 Demo.store = (Ok products, w)
    /\ calls (snd (Home.fetch_products_data (fresh Demo.store Demo.key)))
       = ([] ++ Product_list 100
                :: map (fun p => Price_list (prod_id p) 10) products)%list
    /\ Forall (fun r => exists p, In p products
                                  /\ Home.product_id r = prod_id p
                                  /\ Home.product_name r = prod_name p)
              (Home.products_df Demo2.catalog).
Proof.
  refine (catalog_fetch_lists_products_then_their_prices
            (fresh Demo.store Demo.key)
            (snd (Home.fetch_products_data (fresh Demo.store Demo.key)))
            (Home.products_df Demo2.catalog) _).
  vm_compute. reflexivity.
Defined.

Lemma refused_price_witness :
  CreateProduct.create_product
    1 (Some "Widget") None None "one_time" "month"
    (PFloat (F64.of_decimal 25 (-2))) "usd" None None None
    (fresh Demo2.declining Demo.key)
  = (Ok (CreateProduct.only_message
           (CreateProduct.error_of
              (StripeError "InvalidRequestError"
                           [Lit "Amount must be at least 50 cents"]))),
     {| world := Demo2.declining; api_key := Demo.key;
        calls := [] ++ [Product_create
                          (CreateProduct.make_product_data
                             (Some "Widget") None None None None);
                        Price_create
                          (CreateProduct.make_price_data
                             Demo.widget 25 "usd" None "one_time" "month")];
        tabs := []; stdout := [] |}).
Proof.
  refine (refused_price_leaves_the_product
            1 (Some "Widget") None None "one_time" "month"
            (PFloat (F64.of_decimal 25 (-2))) "usd" None None None
            (fresh Demo2.declining Demo.key) 25 Demo.widget
            (StripeError "InvalidRequestError"
                         [Lit "Amount must be at least 50 cents"])
            Demo2.declining Demo2.declining _ eq_refl _ _ eq_refl eq_refl).
  - discriminate.
  - vm_compute. reflexivity.
  - vm_compute. reflexivity.
Defined.

Lemma no_minimum_witness :
  CreateProduct.amount_to_cents (PInt (-5)) = Ok (-500)
  /\ exists rest,
       calls (snd (CreateProduct.create_product
                     1 (Some "Widget") None None "one_time" "month"
                     (PInt (-5)) "usd" None None None
                     (fresh Demo.shop Demo.key)))
       = ([] ++ Product_create
                  (CreateProduct.make_product_data
                     (Some "Widget") None None None None)
                :: rest)%list.
Proof.
  assert (Hc : CreateProduct.amount_to_cents (PInt (-5)) = Ok (-500))
    by (vm_compute; reflexivity).
  split; [exact Hc|].
  refine (no_minimum_amount_is_enforced
            1 (Some "Widget") None None "one_time" "month"
            (PInt (-5)) "usd" None None None (fresh Demo.shop Demo.key)
            (-500) _ eq_refl eq_refl Hc).
  discriminate.
Defined.

Lemma infinite_amount_witness :
  CreateProduct.create_product
    1 (Some "Widget") None None "one_time" "month" (PStr "inf") "usd"
    None None None (fresh Demo.shop Demo.key)
  = (Ok (CreateProduct.only_message
           (CreateProduct.unexpected_error
              (PyError "OverflowError"
                       [Lit "cannot convert float infinity to integer"]))),
     fresh Demo.shop Demo.key).
Proof.
  refine (nan_or_infinite_amount_fails_before_any_call
            1 (Some "Widget") None None "one_time" "month" (PStr "inf") "usd"
            None None None (fresh Demo.shop Demo.key)
            (S754_infinity false) _ eq_refl eq_refl _ _).
  - discriminate.
  - vm_compute. reflexivity.
  - right. exists false. reflexivity.
Defined.

Lemma entered_cents_witness :
  CreateProduct.amount_to_cents (entered 1999) = Ok 1999
  \/ CreateProduct.amount_to_cents (entered 1999) = Ok (1999 - 1).
Proof.
  apply (entered_cents_convert_within_one 1999). lia.
Defined.

Lemma analytics_without_data_witness :
  exists m s',
    Analytics.import_module (fresh Demo2.unreachable Demo.key) = (Ok m, s')
    /\ Analytics.revenue_df m = []
    /\ Analytics.total_revenue m = PInt 0
    /\ Analytics.total_transactions m = 0
    /\ Analytics.avg_transaction m = PInt 0
    /\ Analytics.create_revenue_chart (Analytics.revenue_df m)
       = {| fig_title := "Revenue Overview (Last 30 Days)";
            fig_annotation := Some "No payment data found in the last 30 days";
            fig_traces := [] |}
    /\ Analytics.layout m
       = Analytics.page_layout [] (Analytics.error_message m) (PInt 0) 0 (PInt 0)
    /\ Analytics.error_message m
       = match fst (do_PaymentIntent_list
                      (api_key (fresh Demo2.unreachable Demo.key)) 100
                      (Some (timestamp_days_ago
                               30 (world (fresh Demo2.unreachable Demo.key))))
                      (world (fresh Demo2.unreachable Demo.key))) with
         | Raise e => Some (Lit "Error fetching Stripe revenue data: " :: str_exn e)
         | Ok _ => None
         end.
Proof.
  apply (analytics_without_data_shows_zeros (fresh Demo2.unreachable Demo.key)).
  left. eexists _, _. reflexivity.
Defined.

Lemma analytics_import_witness :
  exists m,
    Analytics.import_module (fresh Demo.store Demo.key)
    = (Ok m, {| world := Demo.store; api_key := Demo.key;
                calls := [] ++ [PaymentIntent_list 100 (Some 1700000000)];
                tabs := []; stdout := [] |})
    /\ Analytics.error_message m = None
    /\ map (fun r => (Analytics.date r, Analytics.amount r, Analytics.currency r))
           (Analytics.revenue_df m)
       = map (fun p => (local_date (pi_created p),
                        F64.ratio (pi_amount p) 100,
                        Str.upper (pi_currency p)))
             (filter (fun p => (pi_status p =? "succeeded")%string)
                     [ Demo.paid 1010 1700006400;
                       {| pi_status := "requires_payment_method"; pi_amount := 500;
                          pi_currency := "usd"; pi_created := 1700050000;
                          pi_description := None |};
                       Demo.paid 2020 1700092800;
                       Demo.paid 3030 1700096400 ])
    /\ Analytics.total_transactions m
       = Z.of_nat (List.length
                     (filter (fun p => (pi_status p =? "succeeded")%string)
                             [ Demo.paid 1010 1700006400;
                               {| pi_status := "requires_payment_method";
                                  pi_amount := 500; pi_currency := "usd";
                                  pi_created := 1700050000;
                                  pi_description := None |};
                               Demo.paid 2020 1700092800;
                               Demo.paid 3030 1700096400 ]))
    /\ Analytics.total_transactions m <= Z.of_nat 4.
Proof.
  exact (analytics_import_keeps_succeeded_payments
           (fresh Demo.store Demo.key) _ Demo.store eq_refl).
Defined.

Lemma accepted_key_witness :
  exists key k w lines,
    Demo.key = Some key
    /\ ApiBasics.main Demo.key (fresh Demo2.unreachable None)
       = (Ok 0, {| world := w; api_key := Some key;
                   calls := [] ++ firstn k [Account_retrieve; Product_list 3;
                                            Customer_list 3;
                                            PaymentIntent_list 3 None];
                   tabs := []; stdout := [] ++ lines |})
    /\ (1 <= k <= 4)%nat.
Proof.
  exact (accepted_key_always_ends_with_status_0
           Demo.key (fresh Demo2.unreachable None) eq_refl).
Defined.
